(** * MetaSpatial: placing assets in a Blender scene and launching the run

    A shallow embedding of the two scripts of the repository,

      - [src/3d_utlis/place_in_blender.py]  (module [PlaceInBlender]), and
      - [src/run_metaverse_local.py]        (module [RunMetaverseLocal]),

    together with small models of the pieces of the Python runtime they lean
    on ([str] methods, ordered [dict]s, [os.path.join], [argparse],
    [distutils.util.strtobool]).

    Conventions.
      - Python strings are [string]; JSON numbers and Blender's vector
        components are rationals ([Q]); the angle handed to the rotate
        operator involves [math.pi] and lives in [R].
      - A [dict] is an association list without repeated keys, in insertion
        order (Python iterates a dict in that order).
      - Calls into the host ([bpy]), [print] and [subprocess.run] are
        recorded as events of a trace; what the host answers is an argument
        of the model.
      - The [time_function] decorator only measures and prints wall-clock
        time around a call and passes the result through; it leaves no
        event. *)

From Stdlib Require Import String Ascii List Bool Arith ZArith QArith Lia.
From Stdlib Require Import DecimalString.
From Stdlib Require DecimalPos.
From Stdlib Require Import Reals Lra.
Import ListNotations.

Open Scope string_scope.
Open Scope list_scope.

(* ================================================================= *)
(** ** Python strings *)

Module PyStr.

(** [s.startswith(p)] *)
Fixpoint startswith (s p : string) : bool :=
  match p with
  | EmptyString => true
  | String b p' =>
      match s with
      | EmptyString => false
      | String a s' => Ascii.eqb a b && startswith s' p'
      end
  end.

(** [s.endswith(suffix)]: some tail of [s] is [suffix]. *)
Fixpoint endswith (s suffix : string) : bool :=
  String.eqb s suffix ||
  match s with
  | EmptyString => false
  | String _ s' => endswith s' suffix
  end.

(** [s.split(sep)[0]] for a non-empty [sep]: the text before the first
    occurrence of [sep], all of [s] when there is none. *)
Fixpoint split_head (s sep : string) : string :=
  match s with
  | EmptyString => EmptyString
  | String c s' =>
      if startswith s sep then EmptyString else String c (split_head s' sep)
  end.

(** [s.replace(old, "")] for a non-empty [old]: scanning from the left,
    every occurrence of [old] is dropped and the scan resumes after it.
    [skip] counts the characters of the occurrence still to be dropped. *)
Fixpoint remove_from (skip : nat) (s old : string) : string :=
  match s with
  | EmptyString => EmptyString
  | String c s' =>
      match skip with
      | S k => remove_from k s' old
      | O =>
          if startswith s old
          then remove_from (String.length old - 1) s' old
          else String c (remove_from 0 s' old)
      end
  end.

Definition remove_all (s old : string) : string := remove_from 0 s old.

(** [c.lower()] and [s.lower()] on ASCII text. *)
Definition lower_ascii (c : ascii) : ascii :=
  let n := nat_of_ascii c in
  if (65 <=? n)%nat && (n <=? 90)%nat then ascii_of_nat (n + 32) else c.

Fixpoint lower (s : string) : string :=
  match s with
  | EmptyString => EmptyString
  | String c s' => String (lower_ascii c) (lower s')
  end.

(** [str(n)] for an [int]. *)
Definition str_of_int (n : Z) : string := NilZero.string_of_int (Z.to_int n).

(** The characters [str(n)] is made of. *)
Definition digit_or_minus (c : ascii) : Prop :=
  In c (list_ascii_of_string "0123456789-").

(** [x in xs] for a list of strings. *)
Definition in_list (x : string) (xs : list string) : bool :=
  existsb (String.eqb x) xs.

End PyStr.

(* ================================================================= *)
(** ** Python dicts with string keys *)

Module PyDict.

Section Dict.
Context {V : Type}.

Definition dict := list (string * V).

Definition empty : dict := [].

(** [d.get(k)] *)
Fixpoint get (k : string) (d : dict) : option V :=
  match d with
  | [] => None
  | (k', v) :: d' => if String.eqb k' k then Some v else get k d'
  end.

(** [k in d] *)
Definition mem (k : string) (d : dict) : bool :=
  match get k d with Some _ => true | None => false end.

(** [d[k] = v]: an existing key keeps its place, a new one goes last. *)
Fixpoint set (k : string) (v : V) (d : dict) : dict :=
  match d with
  | [] => [(k, v)]
  | (k', v') :: d' =>
      if String.eqb k' k then (k, v) :: d' else (k', v') :: set k v d'
  end.

Definition keys (d : dict) : list string := map fst d.

(** [d.items()] *)
Definition items (d : dict) : list (string * V) := d.
End Dict.

Arguments dict : clear implicits.

End PyDict.

(* ================================================================= *)
(** ** [os.path] (POSIX flavour) *)

Module OsPath.
Import PyStr.

(** One step of [posixpath.join]: an absolute component restarts the path,
    otherwise it is appended, with a separator unless the path so far is
    empty or already ends with one. *)
Definition join2 (path b : string) : string :=
  if startswith b "/" then b
  else if String.eqb path "" || endswith path "/" then (path ++ b)%string
  else (path ++ "/" ++ b)%string.

(** [os.path.join(a, *p)] *)
Definition join (a : string) (p : list string) : string :=
  fold_left join2 p a.

End OsPath.

(* ================================================================= *)
(** ** Exceptions *)

(** The exceptions the modelled code can meet.  [OtherException] stands for
    any other instance of [Exception], carrying its [str(e)]. *)
Inductive exn :=
| ZeroDivisionError
| ValueError (msg : string)
| OtherException (msg : string).

(** [a / b] on numbers: Python raises on a zero divisor, for floats too. *)
Definition py_div (a b : Q) : exn + Q :=
  if Qeq_bool b 0 then inl ZeroDivisionError else inr (a / b)%Q.

(* ================================================================= *)
(** ** Python values, [int], [distutils.util.strtobool] and [argparse] *)

Inductive pyvalue :=
| PyNone
| PyBool (b : bool)
| PyInt (n : Z)
| PyStr (s : string).

Module Argparse.
Import PyStr PyDict.

Definition is_digit (c : ascii) : bool :=
  let n := nat_of_ascii c in (48 <=? n)%nat && (n <=? 57)%nat.

Fixpoint digits_value (acc : Z) (s : string) : option Z :=
  match s with
  | EmptyString => Some acc
  | String c s' =>
      if is_digit c
      then digits_value (10 * acc + Z.of_nat (nat_of_ascii c - 48)) s'
      else None
  end.

(** [int(s)] on a decimal literal with an optional sign ([int] also
    accepts surrounding blanks and underscores, left out here). *)
Definition py_int (s : string) : exn + Z :=
  let bad := inl (ValueError ("invalid literal for int() with base 10: " ++ s)%string) in
  let unsigned (t : string) : option Z :=
    match t with
    | EmptyString => None
    | _ => digits_value 0 t
    end in
  match s with
  | String "-" t => match unsigned t with Some n => inr (- n)%Z | None => bad end
  | String "+" t => match unsigned t with Some n => inr n | None => bad end
  | _ => match unsigned s with Some n => inr n | None => bad end
  end.

(** [distutils.util.strtobool].  The message is
    ["invalid truth value %r" % (val,)]; [%r] is written out for a value
    without quotes, backslashes or control characters. *)
Definition strtobool (val : string) : exn + Z :=
  let val := lower val in
  if in_list val ["y"; "yes"; "t"; "true"; "on"; "1"] then inr 1%Z
  else if in_list val ["n"; "no"; "f"; "false"; "off"; "0"] then inr 0%Z
  else inl (ValueError ("invalid truth value '" ++ val ++ "'")%string).

(** [bool(n)] on an [int] *)
Definition py_bool (n : Z) : bool := negb (n =? 0)%Z.

(** An [add_argument] call.  [Store type] is the default action with its
    [type=] conversion (one value is consumed); [StoreTrue] is
    [action="store_true"] (no value is consumed). *)
Inductive action :=
| Store (type : string -> exn + pyvalue)
| StoreTrue.

Record argument := {
  flag : string;
  act : action;
  required : bool;
  default : pyvalue
}.

Definition parser := list argument.

(** The attribute an option is stored under: its name without the two
    dashes. *)
Definition dest (a : argument) : string :=
  substring 2 (String.length (flag a) - 2) (flag a).

Definition namespace := dict pyvalue.

Inductive result :=
| Parsed (ns : namespace)
| UsageError      (* argparse prints the usage and exits with status 2 *)
| NotModelled.    (* the command line is outside the modelled fragment *)

Definition find_argument (p : parser) (tok : string) : option argument :=
  find (fun a => String.eqb (flag a) tok) p.

(** [c in s] *)
Fixpoint has_char (s : string) (c : ascii) : bool :=
  match s with
  | EmptyString => false
  | String a s' => Ascii.eqb a c || has_char s' c
  end.

(** The long option strings of a parser, with the [--help] argparse
    adds. *)
Definition option_strings (p : parser) : list string :=
  "--help" :: map flag p.

(** A token argparse reads as an option it does not know: two dashes in
    front, no beginning of an option string (argparse takes those as
    abbreviations), no [=] and no blank inside. *)
Definition unknown_option (p : parser) (tok : string) : bool :=
  startswith tok "--"
  && negb (existsb (fun f => startswith f tok) (option_strings p))
  && negb (has_char tok "=")
  && negb (has_char tok " ").

(** The fragment: every token is an option string of the parser written
    in full, an option the parser does not know, or does not start with a
    dash (no abbreviations, no [--flag=value], no [-h] or [--help], no
    single-dash tokens such as negative numbers). *)
Definition in_fragment (p : parser) (tok : string) : bool :=
  match find_argument p tok with
  | Some _ => true
  | None => negb (startswith tok "-") || unknown_option p tok
  end.

Definition defaults (p : parser) : namespace :=
  fold_left (fun ns a => set (dest a) (default a) ns) p empty.

(** Left to right over the tokens; [seen] collects the options met.  In
    the fragment a token with a dash in front is an option, known or not:
    where a value is expected, argparse does not take it for one. *)
Fixpoint parse_tokens (p : parser) (argv : list string)
    (seen : list string) (ns : namespace) : option (list string * namespace) :=
  match argv with
  | [] => Some (seen, ns)
  | tok :: rest =>
      match find_argument p tok with
      | None => None                       (* unrecognized arguments *)
      | Some a =>
          match act a with
          | StoreTrue =>
              parse_tokens p rest (flag a :: seen) (set (dest a) (PyBool true) ns)
          | Store type =>
              match rest with
              | [] => None                 (* expected one argument *)
              | v :: rest' =>
                  if startswith v "-" then None   (* expected one argument *)
                  else
                    match type v with
                    | inl _ => None        (* invalid value *)
                    | inr x =>
                        parse_tokens p rest' (flag a :: seen) (set (dest a) x ns)
                    end
              end
          end
      end
  end.

(** [parser.parse_args(argv)] *)
Definition parse_args (p : parser) (argv : list string) : result :=
  if forallb (in_fragment p) argv then
    match parse_tokens p argv [] (defaults p) with
    | None => UsageError
    | Some (seen, ns) =>
        if forallb (fun a => negb (required a) || in_list (flag a) seen) p
        then Parsed ns
        else UsageError                    (* a required option is missing *)
    end
  else NotModelled.

(** The conversions used by the two scripts. *)
Definition type_str (s : string) : exn + pyvalue := inr (PyStr s).

Definition type_int (s : string) : exn + pyvalue :=
  match py_int s with inl e => inl e | inr n => inr (PyInt n) end.

(** [lambda x: bool(strtobool(x))] *)
Definition type_strtobool (x : string) : exn + pyvalue :=
  match strtobool x with inl e => inl e | inr n => inr (PyBool (py_bool n)) end.

End Argparse.

(* ================================================================= *)
(** ** [place_in_blender.py] *)

Module PlaceInBlender.
Import PyStr PyDict OsPath Argparse.

(** *** Command line *)

Definition parser : Argparse.parser :=
  [ {| flag := "--room_name"; act := Store type_str;
       required := true; default := PyNone |};
    {| flag := "--step_number"; act := Store type_int;
       required := true; default := PyNone |};
    {| flag := "--ground_truth"; act := Store type_strtobool;
       required := true; default := PyNone |};
    {| flag := "--fast_mode"; act := Store type_strtobool;
       required := false; default := PyBool false |};
    {| flag := "--skip_save"; act := Store type_strtobool;
       required := false; default := PyBool false |} ].

(** *** The scene graph *)

(** A triple of numbers: a position, a bounding box, a scale. *)
Definition vec3 := (Q * Q * Q)%type.

(** [item["size_in_meters"]], with its keys ["length"], ["width"] and
    ["height"]. *)
Record size := {
  size_length : Q;
  size_width : Q;
  size_height : Q
}.

(** One record of [scene_graph-backtracked.json]: [item["new_object_id"]],
    [item["position"]] (keys ["x"], ["y"], ["z"]),
    [item["rotation"]["z_angle"]] and [item["size_in_meters"]]. *)
Record item := {
  new_object_id : string;
  position_x : Q;
  position_y : Q;
  position_z : Q;
  rotation_z_angle : Q;
  size_in_meters : size
}.

(** *** The host's objects *)

Inductive object_type := MESH | EMPTY | OTHER (t : string).

(** What the script reads of a [bpy] object: [obj.name], [obj.type] and
    [obj.dimensions], the latter as the host reports it when the scale loop
    reads it. *)
Record bobject := {
  obj_name : string;
  obj_type : object_type;
  obj_dimensions : vec3
}.

Definition is_mesh (o : bobject) : bool :=
  match obj_type o with MESH => true | _ => false end.

Inductive axis := AxisX | AxisY | AxisZ.

(** *** Events: output and calls into the host *)

Inductive event :=
| Print (s : string)
| PrintDict (label : string) (d : dict string)
    (* print(label, d) *)
| ImportGltf (filepath object_name : string)
    (* bpy.ops.import_scene.gltf(filepath=...), then the active object,
       if there is one, is renamed to object_name *)
| SelectAllDeselect
    (* bpy.ops.object.select_all(action='DESELECT') *)
| SelectSet (o : bobject)
    (* o.select_set(True) *)
| SetActive (o : bobject)
    (* bpy.context.view_layer.objects.active = o *)
| ParentClear
    (* bpy.ops.object.parent_clear(type='CLEAR_KEEP_TRANSFORM') *)
| TransformApply
    (* bpy.ops.object.transform_apply(location, rotation, scale) *)
| OriginSet
    (* bpy.ops.object.origin_set(type='ORIGIN_GEOMETRY', center='BOUNDS') *)
| SetLocation (o : bobject) (loc : vec3)
    (* o.location = loc *)
| TransformRotate (value : R) (orient_axis : axis)
    (* bpy.ops.transform.rotate(value=..., orient_axis=...) *)
| SetScale (o : bobject) (s : vec3).
    (* o.scale = s *)

(** *** Loading the scene graph (top level, "Load scene data") *)

Definition structural_labels : list string :=
  ["south_wall"; "north_wall"; "east_wall"; "west_wall";
   "middle of the room"; "ceiling"].

Definition load_step (objects_in_room : dict item) (it : item) : dict item :=
  if negb (in_list (new_object_id it) structural_labels)
  then set (new_object_id it) it objects_in_room
  else objects_in_room.

(** [data] is the parsed JSON list. *)
Definition load_json (data : list item) : dict item :=
  fold_left load_step data empty.

(** *** [find_glb_files] *)

(** One [(root, dirs, files)] triple of [os.walk]. *)
Definition walk_entry := (string * list string * list string)%type.

Definition glb_add (root : string) (glb_files : dict string) (file : string)
  : dict string :=
  if endswith file ".glb" then
    let key := split_head file "." in
    if negb (mem key glb_files)
    then set key (join root [file]) glb_files
    else glb_files
  else glb_files.

Definition glb_walk_step (glb_files : dict string) (e : walk_entry)
  : dict string :=
  let '(root, _, files) := e in
  fold_left (glb_add root) files glb_files.

(** [walk] is what [os.walk(directory)] yields, in order. *)
Definition find_glb_files (walk : list walk_entry) : dict string :=
  fold_left glb_walk_step walk empty.

(** The [.glb] files of a walk with their directories, in the order the
    two loops meet them. *)
Definition glb_entries (walk : list walk_entry) : list (string * string) :=
  flat_map (fun e : walk_entry =>
              let '(root, _, files) := e in
              map (pair root) (filter (fun file => endswith file ".glb") files))
           walk.

(** *** [batch_import_assets] *)

Definition missing_glb_warning (item_id : string) : string :=
  ("Warning: No GLB file found for " ++ item_id)%string.

(** The first loop: the import list and what it prints. *)
Fixpoint collect_imports (its : list (string * item)) (glb_file_paths : dict string)
  : list (string * string) * list event :=
  match its with
  | [] => ([], [])
  | (item_id, _) :: rest =>
      let '(import_list, out) := collect_imports rest glb_file_paths in
      match get item_id glb_file_paths with
      | Some p => ((p, item_id) :: import_list, out)
      | None => (import_list, Print (missing_glb_warning item_id) :: out)
      end
  end.

Definition batch_import_assets
    (objects_in_room : dict item) (directory_path : string)
    (glb_file_paths : dict string) : list event :=
  let '(import_list, out) :=
    collect_imports (items objects_in_room) glb_file_paths in
  PrintDict "glb_file_paths" glb_file_paths
    :: out
    ++ map (fun '(file_path, object_name) => ImportGltf file_path object_name)
           import_list.

(** *** [rescale_object] *)

(** The tuple [(length / x, width / y, height / z)], built left to
    right. *)
Definition scale_factors (scale : size) (bbox_dimensions : vec3)
  : exn + vec3 :=
  let '(bx, by_, bz) := bbox_dimensions in
  match py_div (size_length scale) bx with
  | inl e => inl e
  | inr sx =>
      match py_div (size_width scale) by_ with
      | inl e => inl e
      | inr sy =>
          match py_div (size_height scale) bz with
          | inl e => inl e
          | inr sz => inr (sx, sy, sz)
          end
      end
  end.

Definition rescale_object (obj : bobject) (scale : size)
  : list event * option exn :=
  if is_mesh obj then
    match scale_factors scale (obj_dimensions obj) with
    | inl e => ([], Some e)
    | inr sf => ([SetScale obj sf], None)
    end
  else ([], None).

(** *** [batch_process_meshes], from the second batch on

    The first batch (joining the meshes under each empty parent) is the
    host's work; [scene_objects] is [bpy.context.scene.objects] as the
    script finds it afterwards. *)

Record transform := {
  t_position : vec3;
  t_rotation : R;
  t_size : size
}.

Definition key_variants (name : string) : list string :=
  [ name;
    remove_all name "-joined";
    remove_all name ".001";
    remove_all name ".002" ].

(** [next((k for k in key_variants if k in objects_in_room), None)] *)
Definition find_key (name : string) (objects_in_room : dict item)
  : option string :=
  find (fun k => mem k objects_in_room) (key_variants name).

Definition transform_of (it : item) : transform :=
  {| t_position := (position_x it, position_y it, position_z it);
     t_rotation := (Q2R (rotation_z_angle it) / 180 * PI + PI)%R;
     t_size := size_in_meters it |}.

Definition transform_step (objects_in_room : dict item)
    (transform_map : dict transform) (obj : bobject) : dict transform :=
  match find_key (obj_name obj) objects_in_room with
  | Some key =>
      match get key objects_in_room with
      | Some it => set (obj_name obj) (transform_of it) transform_map
      | None => transform_map
      end
  | None => transform_map
  end.

Definition build_transform_map (objects_in_room : dict item)
    (MSH_OBJS : list bobject) : dict transform :=
  fold_left (transform_step objects_in_room) MSH_OBJS empty.

Definition apply_locations (transform_map : dict transform)
    (MSH_OBJS : list bobject) : list event :=
  flat_map (fun obj =>
              match get (obj_name obj) transform_map with
              | Some t => [SetLocation obj (t_position t)]
              | None => []
              end) MSH_OBJS.

Definition apply_rotations (transform_map : dict transform)
    (MSH_OBJS : list bobject) : list event :=
  flat_map (fun obj =>
              match get (obj_name obj) transform_map with
              | Some t =>
                  [SelectAllDeselect; SelectSet obj; SetActive obj;
                   TransformRotate (t_rotation t) AxisZ]
              | None => []
              end) MSH_OBJS.

(** The scale loop stops at the first exception. *)
Fixpoint apply_scales (transform_map : dict transform)
    (MSH_OBJS : list bobject) : list event * option exn :=
  match MSH_OBJS with
  | [] => ([], None)
  | obj :: rest =>
      match get (obj_name obj) transform_map with
      | Some t =>
          if is_mesh obj then
            match scale_factors (t_size t) (obj_dimensions obj) with
            | inl e => ([], Some e)
            | inr sf =>
                let '(tr, r) := apply_scales transform_map rest in
                (SetScale obj sf :: tr, r)
            end
          else apply_scales transform_map rest
      | None => apply_scales transform_map rest
      end
  end.

Definition mesh_objects (scene_objects : list bobject) : list bobject :=
  filter is_mesh scene_objects.

Definition clear_parents (MSH_OBJS : list bobject) : list event :=
  SelectAllDeselect
    :: map SelectSet MSH_OBJS
    ++ match MSH_OBJS with
       | first :: _ => [SetActive first; ParentClear; TransformApply; OriginSet]
       | [] => []
       end.

Definition batch_process_meshes
    (objects_in_room : dict item) (scene_objects : list bobject)
  : list event * option exn :=
  let MSH_OBJS := mesh_objects scene_objects in
  let transform_map := build_transform_map objects_in_room MSH_OBJS in
  let '(scales, r) := apply_scales transform_map MSH_OBJS in
  (clear_parents MSH_OBJS
     ++ [SelectAllDeselect]
     ++ apply_locations transform_map MSH_OBJS
     ++ apply_rotations transform_map MSH_OBJS
     ++ scales,
   r).

(** What the host does with a trace: [select_all(DESELECT)] empties the
    selection, [select_set(True)] adds to it, and the rotate operator
    turns every selected object.  [rotations_applied sel tr] lists, for a
    trace [tr] run from the selection [sel], each object turned with the
    angle and axis. *)
Fixpoint rotations_applied (sel : list bobject) (tr : list event)
  : list (bobject * R * axis) :=
  match tr with
  | [] => []
  | SelectAllDeselect :: tr' => rotations_applied [] tr'
  | SelectSet o :: tr' => rotations_applied (o :: sel) tr'
  | TransformRotate v a :: tr' =>
      map (fun o => (o, v, a)) sel ++ rotations_applied sel tr'
  | _ :: tr' => rotations_applied sel tr'
  end.

(** The events that leave the selection alone and turn nothing. *)
Definition keeps_selection (ev : event) : bool :=
  match ev with
  | SelectAllDeselect | SelectSet _ | TransformRotate _ _ => false
  | _ => true
  end.

(** The events that are not a rotation. *)
Definition turns_nothing (ev : event) : bool :=
  match ev with
  | TransformRotate _ _ => false
  | _ => true
  end.

(** The transform a mesh name is matched to, if any. *)
Definition matched_transform (objects_in_room : dict item) (name : string)
  : option transform :=
  match find_key name objects_in_room with
  | Some key => option_map transform_of (get key objects_in_room)
  | None => None
  end.

(** All three components of a bounding box differ from zero. *)
Definition nonzero_dimensions (d : vec3) : Prop :=
  let '(bx, by_, bz) := d in ~ bx == 0 /\ ~ by_ == 0 /\ ~ bz == 0.

(** *** Output paths ([setup_render], "Save file") *)

(** [room_path = os.path.join(script_dir, "data", args.room_name)] *)
Definition room_path (script_dir room_name : string) : string :=
  join script_dir ["data"; room_name].

(** [scene.render.filepath], where [bpy.ops.render.render(write_still=True)]
    writes the image. *)
Definition render_filepath (room_path : string) (ground_truth : bool)
    (step_number : Z) : string :=
  if ground_truth
  then join room_path ["render_output_groundtruth1.png"]
  else join room_path
         [("render_output_step_" ++ str_of_int step_number ++ ".png")%string].

(** The [.blend] file saved unless [skip_save]. *)
Definition blend_filepath (room_path : string) (ground_truth : bool)
    (step_number : Z) : string :=
  if ground_truth
  then join room_path ["generated_scene_groundtruth.blend"]
  else join room_path
         [("generated_scene_step_" ++ str_of_int step_number ++ ".blend")%string].

End PlaceInBlender.

(* ================================================================= *)
(** ** [run_metaverse_local.py] *)

Module RunMetaverseLocal.
Import PyStr PyDict OsPath Argparse.

(** *** Command line *)

Definition parser : Argparse.parser :=
  [ {| flag := "--room_name"; act := Store type_str;
       required := true; default := PyNone |};
    {| flag := "--step_number"; act := Store type_int;
       required := false; default := PyInt 1 |};
    {| flag := "--ground_truth"; act := Store type_str;
       required := false; default := PyStr "false" |};
    {| flag := "--fast_mode"; act := StoreTrue;
       required := false; default := PyBool false |};
    {| flag := "--skip_save"; act := StoreTrue;
       required := false; default := PyBool false |} ].

(** *** The world around the script *)

(** What [subprocess.run(..., capture_output=True, text=True)] returns. *)
Record CompletedProcess := {
  returncode : Z;
  stdout : string;
  stderr : string
}.

(** [path_exists] is [os.path.exists] before the subprocess is launched,
    [path_exists_after] the same once it has finished; [subprocess_run]
    answers a command line with a completed process or with an exception;
    [elapsed] is the text of [end_time - start_time]. *)
Record world := {
  path_exists : string -> bool;
  subprocess_run : string -> exn + CompletedProcess;
  path_exists_after : string -> bool;
  elapsed : string
}.

Inductive event :=
| Print (s : string)
| SubprocessRun (cmd : string).

(** The events that start a subprocess. *)
Definition launches (ev : event) : Prop := exists c, ev = SubprocessRun c.

(** How a block of statements ends. *)
Inductive completion :=
| Normal
| Return (v : pyvalue)
| Raise (e : exn).

(** How a call ends. *)
Inductive outcome :=
| Returned (v : pyvalue)
| Raised (e : exn).

(** [str(e)] *)
Definition str_of_exn (e : exn) : string :=
  match e with
  | ZeroDivisionError => "division by zero"
  | ValueError msg => msg
  | OtherException msg => msg
  end.

Section Script.
(** [os.path.abspath(os.path.dirname(__file__))] *)
Variable PROJECT_ROOT : string.

Definition ROOMS_FOLDER : string := join PROJECT_ROOT ["3d_utlis"; "data"].

Definition PLACE_IN_BLENDER_SCRIPT : string :=
  join PROJECT_ROOT ["3d_utlis"; "place_in_blender.py"].

Definition room_path (room_name : string) : string :=
  join ROOMS_FOLDER [room_name].

Definition backtracked_json_path (room_name : string) : string :=
  join (room_path room_name) ["scene_graph-backtracked.json"].

Definition render_output (room_name : string) (step_number : Z) : string :=
  join (room_path room_name)
       [("render_output_step_" ++ str_of_int step_number ++ ".png")%string].

Definition blender_cmd (room_name : string) (step_number : Z)
    (ground_truth : string) (fast_mode skip_save : bool) : string :=
  let cmd :=
    ("python " ++ PLACE_IN_BLENDER_SCRIPT
       ++ " --room_name " ++ room_name
       ++ " --step_number " ++ str_of_int step_number
       ++ " --ground_truth " ++ ground_truth)%string in
  let cmd := if fast_mode then (cmd ++ " --fast_mode true")%string else cmd in
  let cmd := if skip_save then (cmd ++ " --skip_save true")%string else cmd in
  cmd.

(** The body of the [try]. *)
Definition try_body (w : world) (room_name : string) (step_number : Z)
    (ground_truth : string) (fast_mode skip_save : bool)
  : list event * completion :=
  let room_path := room_path room_name in
  if negb (path_exists w room_path) then
    ([Print ("Error: Room folder " ++ room_path ++ " does not exist")%string],
     Return PyNone)
  else
    let json := backtracked_json_path room_name in
    if negb (path_exists w json) then
      ([Print ("Error: Backtracked JSON file " ++ json ++ " does not exist")%string],
       Return PyNone)
    else
      let cmd := blender_cmd room_name step_number ground_truth fast_mode skip_save in
      let launched :=
        [ Print ("Processing room: " ++ room_name)%string;
          Print ("Using scene graph: " ++ json)%string;
          Print ("Running: " ++ cmd)%string;
          SubprocessRun cmd ] in
      match subprocess_run w cmd with
      | inl e => (launched, Raise e)
      | inr result =>
          let shown :=
            launched ++ [Print "BLENDER TIME DELAY OUTPUT"; Print (stdout result)] in
          if negb (returncode result =? 0)%Z then
            (shown ++ [Print ("Error running place_in_blender.py: "
                                ++ stderr result)%string],
             Return PyNone)
          else
            let render_output := render_output room_name step_number in
            (shown
               ++ [ Print "Blender processing completed successfully";
                    if path_exists_after w render_output
                    then Print ("Render output generated: " ++ render_output)%string
                    else Print ("Warning: Expected render output not found at "
                                  ++ render_output)%string;
                    Print ("Total time in run_local_metaverse: "
                             ++ elapsed w ++ " seconds")%string ],
             Normal)
      end.

(** [try: ... except Exception as e: print(...)]; a function that runs
    off its end, or meets a bare [return], returns [None]. *)
Definition run_local_metaverse (w : world) (room_name : string)
    (step_number : Z) (ground_truth : string) (fast_mode skip_save : bool)
  : list event * outcome :=
  let '(tr, c) :=
    try_body w room_name step_number ground_truth fast_mode skip_save in
  match c with
  | Return v => (tr, Returned v)
  | Normal => (tr, Returned PyNone)
  | Raise e =>
      (tr ++ [Print ("Error in run_local_metaverse: " ++ str_of_exn e)%string],
       Returned PyNone)
  end.

(** The [__main__] block once the arguments are parsed: the call is the
    last statement, so the interpreter exits with status 0 when it
    returns and with status 1 when an exception escapes it. *)
Definition main (w : world) (room_name : string) (step_number : Z)
    (ground_truth : string) (fast_mode skip_save : bool)
  : list event * Z :=
  let '(tr, o) :=
    run_local_metaverse w room_name step_number ground_truth fast_mode skip_save in
  (tr, match o with Returned _ => 0%Z | Raised _ => 1%Z end).
End Script.

End RunMetaverseLocal.

(* ================================================================= *)
(** ** A small room, used to run the definitions *)

Module Samples.
Import PlaceInBlender.

Definition chair : item :=
  {| new_object_id := "chair";
     position_x := 1; position_y := 2; position_z := 0;
     rotation_z_angle := 90;
     size_in_meters :=
       {| size_length := 1; size_width := 1; size_height := 2 |} |}.

Definition south_wall : item :=
  {| new_object_id := "south_wall";
     position_x := 3; position_y := 0; position_z := 0;
     rotation_z_angle := 0;
     size_in_meters :=
       {| size_length := 6; size_width := 0; size_height := 3 |} |}.

Definition table : item :=
  {| new_object_id := "table";
     position_x := 3; position_y := 2; position_z := 0;
     rotation_z_angle := 0;
     size_in_meters :=
       {| size_length := 2; size_width := 1; size_height := 1 |} |}.

Definition data : list item := [chair; south_wall; table].

Definition objects_in_room : PyDict.dict item := load_json data.

(** The chair, joined from the meshes of its import. *)
Definition chair_mesh : bobject :=
  {| obj_name := "chair-joined"; obj_type := MESH; obj_dimensions := (2, 2, 4) |}.

(** A mesh that is in no scene graph. *)
Definition lamp_mesh : bobject :=
  {| obj_name := "lamp"; obj_type := MESH; obj_dimensions := (1, 1, 1) |}.

(** A table top without thickness along y. *)
Definition flat_mesh : bobject :=
  {| obj_name := "table.001"; obj_type := MESH; obj_dimensions := (1, 0, 1) |}.

Definition scene : list bobject := [chair_mesh; lamp_mesh].

Definition walk : list walk_entry :=
  [ ("/r/assets", ["sub"], ["chair.glb"; "chair.001.glb"; "notes.txt"]);
    ("/r/assets/sub", [], ["table.glb"]) ].

(** A world without the room folder. *)
Definition empty_world : RunMetaverseLocal.world :=
  {| RunMetaverseLocal.path_exists := fun _ => false;
     RunMetaverseLocal.subprocess_run :=
       fun _ => inl (OtherException "not reached");
     RunMetaverseLocal.path_exists_after := fun _ => false;
     RunMetaverseLocal.elapsed := "0.0" |}.

(** A world where the inner script fails. *)
Definition failing_world : RunMetaverseLocal.world :=
  {| RunMetaverseLocal.path_exists := fun _ => true;
     RunMetaverseLocal.subprocess_run :=
       fun _ =>
         inr {| RunMetaverseLocal.returncode := 1;
                RunMetaverseLocal.stdout := "";
                RunMetaverseLocal.stderr := "ModuleNotFoundError: bpy" |};
     RunMetaverseLocal.path_exists_after := fun _ => false;
     RunMetaverseLocal.elapsed := "0.1" |}.


End Samples.

(* ================================================================= *)
(** ** More of the two scripts *)

(** *** Substrings *)

Module PyStrMore.
Import PyStr.

(** [old in s] *)
Fixpoint occurs (s old : string) : bool :=
  startswith s old ||
  match s with
  | EmptyString => false
  | String _ s' => occurs s' old
  end.

(** [c not in s] *)
Fixpoint lacks (s : string) (c : ascii) : bool :=
  match s with
  | EmptyString => true
  | String a s' => negb (Ascii.eqb a c) && lacks s' c
  end.

(** Dropping the repeats of a list, each element staying where it first
    appears. *)
Fixpoint first_occurrences (l : list string) : list string :=
  match l with
  | [] => []
  | x :: l' => x :: filter (fun y => negb (String.eqb y x)) (first_occurrences l')
  end.

End PyStrMore.

(** *** The object hierarchy and [select_meshes_under_empty] *)

Module Hierarchy.
Import PyStr PyDict PlaceInBlender.

(** An object with its [children].  Names are unique in a Blender file, so
    [bpy.data.objects.get(child.name)] is [child] itself. *)
#[warnings="-register-all"]
Inductive onode := ONode (o : bobject) (children : list onode).

Definition node_object (n : onode) : bobject :=
  match n with ONode o _ => o end.

Definition node_children (n : onode) : list onode :=
  match n with ONode _ children => children end.

Definition is_empty (o : bobject) : bool :=
  match obj_type o with EMPTY => true | _ => false end.

(** [select_meshes_under_empty(empty_object_name)], for the object found
    under that name. *)
Fixpoint select_meshes_under_empty (empty_object : onode) : list event :=
  match empty_object with
  | ONode o children =>
      if is_empty o then
        flat_map (fun child =>
                    if is_mesh (node_object child)
                    then [SelectSet (node_object child);
                          SetActive (node_object child)]
                    else select_meshes_under_empty child)
                 children
      else []
  end.

(** The events of one child, as the loop body has them. *)
Definition child_events (child : onode) : list event :=
  if is_mesh (node_object child)
  then [SelectSet (node_object child); SetActive (node_object child)]
  else select_meshes_under_empty child.

(** Selections, each followed at once by making the object active. *)
Definition select_pairs (l : list bobject) : list event :=
  flat_map (fun m => [SelectSet m; SetActive m]) l.

(** [select_meshes_under_empty(name)] when no object has that name. *)
Definition select_meshes_under_missing : list event := [].

(** The meshes that hang under an empty through empties only. *)
Inductive mesh_under : onode -> bobject -> Prop :=
| mesh_child o children child :
    is_empty o = true -> In child children ->
    is_mesh (node_object child) = true ->
    mesh_under (ONode o children) (node_object child)
| mesh_deeper o children child m :
    is_empty o = true -> In child children ->
    is_mesh (node_object child) = false ->
    mesh_under child m ->
    mesh_under (ONode o children) m.

(** A mesh whose name leads to a scene-graph entry. *)
Definition is_matched (objects_in_room : dict item) (o : bobject) : bool :=
  match find_key (obj_name o) objects_in_room with
  | Some _ => true
  | None => false
  end.

(** The identifiers the loading loop keeps. *)
Definition non_structural (id : string) : bool :=
  negb (in_list id structural_labels).

(** [joined_object.name = empty_parent.name + "-joined"] *)
Definition joined_name (empty_parent_name : string) : string :=
  (empty_parent_name ++ "-joined")%string.

(** The objects a trace selects, in order. *)
Definition selected (tr : list event) : list bobject :=
  flat_map (fun ev => match ev with SelectSet o => [o] | _ => [] end) tr.

(** The object that is active after a trace, if the trace sets one. *)
Definition last_active (tr : list event) : option bobject :=
  fold_left (fun act ev => match ev with SetActive o => Some o | _ => act end)
            tr None.

(** The names under which a trace imports, in order. *)
Definition imported_names (tr : list event) : list string :=
  flat_map (fun ev => match ev with ImportGltf _ name => [name] | _ => [] end) tr.

(** The objects a trace scales, in order. *)
Definition scaled (tr : list event) : list bobject :=
  flat_map (fun ev => match ev with SetScale o _ => [o] | _ => [] end) tr.

End Hierarchy.

(** *** The files of the inner script *)

Module InnerPaths.
Import OsPath.

(** [file_path = os.path.join(room_path, "scene_graph-backtracked.json")] *)
Definition scene_graph_path (room_path : string) : string :=
  join room_path ["scene_graph-backtracked.json"].

(** [directory_path = os.path.join(room_path, "assets")] *)
Definition assets_directory (room_path : string) : string :=
  join room_path ["assets"].

End InnerPaths.

(** *** The inner script from top to bottom *)

Module InnerScript.
Import PyStr PyDict OsPath PlaceInBlender Hierarchy InnerPaths.

(** The parsed command line. *)
Record args := {
  room_name : string;
  step_number : Z;
  ground_truth : bool;
  fast_mode : bool;
  skip_save : bool
}.

(** The value of an attribute assignment. *)
Inductive setting :=
| VBool (b : bool)
| VInt (n : Z)
| VNum (q : Q)
| VStr (s : string)
| VAngles (x y z : R).

(** The events of the script: those of the functions above, and the other
    prints and calls into the host.  The lines that report wall-clock
    times, and the performance summary made of them, are left out. *)
Inductive event :=
| Op (e : PlaceInBlender.event)
| Say (s : string)
    (* print(s) *)
| SetAttr (attribute : string) (value : setting)
    (* attribute = value *)
| RemoveObject (name : string)
    (* bpy.data.objects.remove(...) of the object of that name *)
| OpenRead (path : string)
    (* open(path, 'r') and json.load *)
| Walk (directory : string)
    (* os.walk(directory) *)
| Join
    (* bpy.ops.object.join() *)
| RenameActive (name : string)
    (* the active object, if there is one, is renamed and deselected *)
| CubeAdd (size : Q) (location : vec3)
    (* bpy.ops.mesh.primitive_cube_add(size=..., location=...) *)
| Resize (value : vec3)
    (* bpy.ops.transform.resize(value=...) *)
| MaterialNew (name : string)
    (* bpy.data.materials.new(name=...) *)
| MaterialAppend
    (* room.data.materials.append(mat) *)
| CameraAdd (location : vec3)
    (* bpy.ops.object.camera_add(location=...) *)
| SaveAsMainfile (filepath : string)
    (* bpy.ops.wm.save_as_mainfile(filepath=..., check_existing=False) *)
| SetRenderFilepath (filepath : string)
    (* scene.render.filepath = ... *)
| Render.
    (* bpy.ops.render.render(write_still=True) *)

(** How the script ends: it runs to its last line, or an exception leaves
    it (nothing in the script catches one): that of reading the scene
    graph, that of the script's own arithmetic, or one a call into the
    host raises (a [RuntimeError] of [bpy.ops.object.join()], say). *)
Inductive script_end :=
| Finished
| Aborted (e : exn).

(** An object of [bpy.data.objects] with what hangs under it, and whether
    it has a parent. *)
Record data_object := {
  node : onode;
  has_parent : bool
}.

(** What the host and the file system answer during a run. *)
Record host := {
  has_default_cube : bool;
      (* bpy.data.objects.get('Cube') is not None *)
  scene_graph : exn + list item;
      (* open(file_path) and json.load(file) *)
  walk : list walk_entry;
      (* os.walk(directory_path) *)
  data_objects : list data_object;
      (* bpy.data.objects once the assets are imported *)
  scene_objects : list bobject;
      (* bpy.context.scene.objects once the meshes are joined *)
  cleanup_objects : list bobject;
      (* the objects the loop of delete_empty_objects meets *)
  has_bsdf : bool;
      (* mat.node_tree.nodes.get("Principled BSDF") *)
  has_camera : bool;
      (* bpy.data.objects.get("Camera") is not None *)
  has_cycles : bool;
  has_eevee : bool;
  has_taa_render_samples : bool;
  has_use_gtao : bool;
  has_use_ssr : bool;
  has_use_bloom : bool;
  has_volumetric_samples : bool;
      (* the hasattr tests of setup_render *)
  host_failure : option (nat * exn)
      (* [Some (n, e)]: the call behind event number [n] of the run, counted
         from 0, raises [e] and has no effect *)
}.

(** [str(b)] for a bool. *)
Definition str_of_bool (b : bool) : string := if b then "True" else "False".

(** [obj.type] as a string. *)
Definition type_name (t : object_type) : string :=
  match t with MESH => "MESH" | EMPTY => "EMPTY" | OTHER s => s end.

(** [get_highest_parent_objects] *)
Definition get_highest_parent_objects (objects : list data_object)
  : list data_object :=
  filter (fun obj => negb (has_parent obj)) objects.

(** The first batch of [batch_process_meshes]: the meshes under each empty
    parent are joined. *)
Definition join_meshes (objects : list data_object) : list event :=
  let parents := get_highest_parent_objects objects in
  let empty_parents :=
    filter (fun parent => is_empty (node_object (node parent))) parents in
  flat_map (fun empty_parent =>
              [Op SelectAllDeselect]
                ++ map Op (select_meshes_under_empty (node empty_parent))
                ++ [Join;
                    RenameActive
                      (joined_name (obj_name (node_object (node empty_parent))))])
           empty_parents.

(** [delete_empty_objects] *)
Definition delete_empty_objects (objects : list bobject) : list event :=
  flat_map (fun obj =>
              Say (obj_name obj ++ " " ++ type_name (obj_type obj))%string
                :: (if is_empty obj
                    then [Op (SetActive obj); RemoveObject (obj_name obj)]
                    else []))
           objects.

(** [create_room(width, depth, height)] *)
Definition create_room (h : host) (width depth height : Q) : list event :=
  [ CubeAdd 1 ((width / 2)%Q, (depth / 2)%Q, (height / 2)%Q);
    Resize (width, depth, height);
    MaterialNew "TransparentMaterial";
    SetAttr "mat.use_nodes" (VBool true) ]
    ++ (if has_bsdf h
        then [SetAttr "bsdf.inputs[Alpha].default_value" (VNum (2 # 10))]
        else [])
    ++ [ SetAttr "mat.blend_method" (VStr "BLEND"); MaterialAppend ].

(** [math.radians(d)] *)
Definition radians (d : R) : R := (d * PI / 180)%R.

(** [setup_render] *)
Definition setup_render (h : host) (a : args) (room_path : string)
  : list event :=
  (if has_camera h then []
   else [ CameraAdd (25 # 10, - (3), 17 # 10);
          SetAttr "camera.name" (VStr "Camera");
          SetAttr "camera.rotation_euler"
                  (VAngles (radians 70) 0 (radians 45)) ])
    ++ [ SetAttr "camera.data.type" (VStr "PERSP");
         SetAttr "camera.data.lens" (VInt 35);
         SetAttr "camera.data.lens_unit" (VStr "MILLIMETERS");
         SetAttr "camera.data.shift_x" (VNum (3 # 10));
         SetAttr "camera.data.shift_y" (VNum (1 # 10)) ]
    ++ (if fast_mode a then
          [ Say "Using fast render settings";
            SetAttr "scene.render.resolution_x" (VInt 400);
            SetAttr "scene.render.resolution_y" (VInt 400);
            SetAttr "scene.render.resolution_percentage" (VInt 80) ]
            ++ (if has_cycles h then
                  [ Say "cycles was chosen";
                    SetAttr "scene.cycles.samples" (VInt 64);
                    SetAttr "scene.cycles.max_bounces" (VInt 2);
                    SetAttr "scene.cycles.diffuse_bounces" (VInt 1);
                    SetAttr "scene.cycles.glossy_bounces" (VInt 1);
                    SetAttr "scene.cycles.transparent_max_bounces" (VInt 1);
                    SetAttr "scene.cycles.transmission_bounces" (VInt 1);
                    SetAttr "scene.cycles.volume_bounces" (VInt 0);
                    SetAttr "scene.cycles.use_adaptive_sampling" (VBool true);
                    SetAttr "scene.cycles.adaptive_threshold" (VNum (1 # 10)) ]
                else [])
            ++ (if has_eevee h then
                  [ Say "eevee was chose -- more optimized than cycles" ]
                    ++ (if has_taa_render_samples h
                        then [SetAttr "scene.eevee.taa_render_samples" (VInt 4)]
                        else [])
                    ++ (if has_use_gtao h
                        then [SetAttr "scene.eevee.use_gtao" (VBool false)]
                        else [])
                    ++ (if has_use_ssr h
                        then [SetAttr "scene.eevee.use_ssr" (VBool false)]
                        else [])
                    ++ (if has_use_bloom h
                        then [SetAttr "scene.eevee.use_bloom" (VBool false)]
                        else [])
                    ++ (if has_volumetric_samples h
                        then [SetAttr "scene.eevee.volumetric_samples" (VInt 4)]
                        else [])
                else [])
        else
          [ SetAttr "scene.render.resolution_x" (VInt 800);
            SetAttr "scene.render.resolution_y" (VInt 800);
            SetAttr "scene.render.resolution_percentage" (VInt 100) ])
    ++ [ SetAttr "camera.data.clip_start" (VNum (1 # 10));
         SetAttr "camera.data.clip_end" (VNum 100);
         SetRenderFilepath
           (render_filepath room_path (ground_truth a) (step_number a));
         SetAttr "scene.render.image_settings.file_format" (VStr "PNG") ].

(** "Save file (optional)" *)
Definition save_blend (a : args) (room_path : string) : list event :=
  if negb (skip_save a)
  then [SaveAsMainfile
          (blend_filepath room_path (ground_truth a) (step_number a))]
  else [].

(** The script before it opens the scene graph. *)
Definition prologue (a : args) (h : host) (room_path : string) : list event :=
  [ SetAttr "preferences.filepaths.save_version" (VInt 0);
    Say ("Processing room: " ++ room_name a)%string;
    Say ("Room path: " ++ room_path)%string;
    Say ("Ground truth: " ++ str_of_bool (ground_truth a))%string;
    Say ("Fast mode: " ++ str_of_bool (fast_mode a))%string;
    Say ("Skip save: " ++ str_of_bool (skip_save a))%string ]
    ++ (if has_default_cube h then [RemoveObject "Cube"] else [])
    ++ [ Say ("Using scene graph file: " ++ scene_graph_path room_path)%string;
         OpenRead (scene_graph_path room_path) ].

(** The script after the meshes are placed. *)
Definition epilogue (a : args) (h : host) (room_path : string) : list event :=
  [Op SelectAllDeselect]
    ++ delete_empty_objects (cleanup_objects h)
    ++ create_room h 6 4 3
    ++ save_blend a room_path
    ++ setup_render h a room_path
    ++ [Say "Rendering now..."; Render].

(** [place_in_blender.py], run with the arguments [a] from the directory
    [script_dir], as long as no call into the host raises. *)
Definition script_body (script_dir : string) (a : args) (h : host)
  : list event * script_end :=
  let room_path := PlaceInBlender.room_path script_dir (room_name a) in
  match scene_graph h with
  | inl e => (prologue a h room_path, Aborted e)
  | inr data =>
      let objects_in_room := load_json data in
      let directory_path := assets_directory room_path in
      let glb_file_paths := find_glb_files (walk h) in
      let imported :=
        Walk directory_path
          :: map Op (batch_import_assets objects_in_room directory_path
                                         glb_file_paths) in
      let '(placed, r) := batch_process_meshes objects_in_room (scene_objects h) in
      let processed := join_meshes (data_objects h) ++ map Op placed in
      match r with
      | Some e => (prologue a h room_path ++ imported ++ processed, Aborted e)
      | None =>
          (prologue a h room_path ++ imported ++ processed
             ++ epilogue a h room_path,
           Finished)
      end
  end.

(** [place_in_blender.py]: the run stops at the first exception, that of
    the host when its failing call is reached, and the events before it
    have happened. *)
Definition script (script_dir : string) (a : args) (h : host)
  : list event * script_end :=
  let '(tr, r) := script_body script_dir a h in
  match host_failure h with
  | Some (n, e) =>
      if (n <? length tr)%nat then (firstn n tr, Aborted e) else (tr, r)
  | None => (tr, r)
  end.

(** What the script has done when it reaches the epilogue. *)
Definition before_epilogue (script_dir : string) (a : args) (h : host)
    (data : list item) : list event :=
  let room_path := PlaceInBlender.room_path script_dir (room_name a) in
  prologue a h room_path
    ++ (Walk (assets_directory room_path)
          :: map Op (batch_import_assets (load_json data)
                       (assets_directory room_path) (find_glb_files (walk h))))
    ++ join_meshes (data_objects h)
    ++ map Op (fst (batch_process_meshes (load_json data) (scene_objects h))).

(** The exit status of the interpreter. *)
Definition exit_status (e : script_end) : Z :=
  match e with Finished => 0%Z | Aborted _ => 1%Z end.

(** The files a trace writes: the saves, and the renders to the path set
    last ([filepath] is the path in force when the trace starts). *)
Fixpoint files_written (filepath : option string) (tr : list event)
  : list string :=
  match tr with
  | [] => []
  | SaveAsMainfile p :: tr' => p :: files_written filepath tr'
  | SetRenderFilepath p :: tr' => files_written (Some p) tr'
  | Render :: tr' =>
      match filepath with
      | Some p => p :: files_written filepath tr'
      | None => files_written filepath tr'
      end
  | _ :: tr' => files_written filepath tr'
  end.

(** The events that neither write a file nor set the render path. *)
Definition writes_nothing (ev : event) : bool :=
  match ev with
  | SaveAsMainfile _ | SetRenderFilepath _ | Render => false
  | _ => true
  end.

End InnerScript.

(** *** The command line the outer script builds *)

Module Shell.
Import PyStr.

(** A blank of the shell: space, tab or newline. *)
Definition is_blank (c : ascii) : bool :=
  let n := nat_of_ascii c in
  (n =? 32)%nat || (n =? 9)%nat || (n =? 10)%nat.

(** A character that means nothing to the shell: a letter, a digit or one
    of [_], [-], [.] and [/]. *)
Definition sh_plain (c : ascii) : bool :=
  let n := nat_of_ascii c in
  ((48 <=? n)%nat && (n <=? 57)%nat)
  || ((65 <=? n)%nat && (n <=? 90)%nat)
  || ((97 <=? n)%nat && (n <=? 122)%nat)
  || (n =? 95)%nat || (n =? 45)%nat || (n =? 46)%nat || (n =? 47)%nat.

Fixpoint all_plain (s : string) : bool :=
  match s with
  | EmptyString => true
  | String c s' => sh_plain c && all_plain s'
  end.

(** A text the shell hands on as one word, unchanged: not empty, made of
    such characters only. *)
Definition shell_word (s : string) : bool :=
  negb (String.eqb s "") && all_plain s.

(** The words [/bin/sh -c] makes of a command line of blanks and such
    characters: the runs between the blanks ([cur] is the run being read).
    Any other character (a quote, [$], [#], [*], ...) has a meaning to the
    shell and is not modelled: the answer is [None]. *)
Fixpoint sh_fields (s cur : string) : option (list string) :=
  match s with
  | EmptyString => Some (if String.eqb cur "" then [] else [cur])
  | String c s' =>
      if is_blank c then
        option_map (fun ws => if String.eqb cur "" then ws else cur :: ws)
                   (sh_fields s' "")
      else if sh_plain c then sh_fields s' (cur ++ String c "")
      else None
  end.

Definition sh_words (cmd : string) : option (list string) := sh_fields cmd "".

(** [sys.argv[1:]] of a script started by the command line
    [interpreter script word ...] through [subprocess.run(cmd, shell=True)]. *)
Definition script_argv (cmd : string) : option (list string) :=
  match sh_words cmd with
  | Some (_ :: _ :: argv) => Some argv
  | _ => None
  end.

End Shell.

Module OuterCli.
Import PyStr PyDict OsPath Argparse RunMetaverseLocal.

(** The commands a trace hands to [subprocess.run], in order. *)
Definition launched_commands (tr : list event) : list string :=
  flat_map (fun ev => match ev with SubprocessRun c => [c] | _ => [] end) tr.

End OuterCli.

(** *** More of the sample room *)

Module MoreSamples.
Import PlaceInBlender Hierarchy InnerScript Samples.

(** A second mesh of the chair, below the first in the hierarchy. *)
Definition cushion_mesh : bobject :=
  {| obj_name := "cushion"; obj_type := MESH; obj_dimensions := (1, 1, 1) |}.

Definition legs_mesh : bobject :=
  {| obj_name := "legs"; obj_type := MESH; obj_dimensions := (1, 1, 1) |}.

Definition chair_empty : bobject :=
  {| obj_name := "chair"; obj_type := EMPTY; obj_dimensions := (0, 0, 0) |}.

Definition inner_empty : bobject :=
  {| obj_name := "chair_root"; obj_type := EMPTY; obj_dimensions := (0, 0, 0) |}.

(** The imported chair: an empty with the legs, and an inner empty with the
    cushion. *)
Definition chair_tree : onode :=
  ONode chair_empty
    [ ONode legs_mesh [];
      ONode inner_empty [ONode cushion_mesh []] ].

(** A scene where the table top has no thickness. *)
Definition flat_scene : list bobject := [chair_mesh; flat_mesh; lamp_mesh].

Definition step_args : args :=
  {| room_name := "room_97"; step_number := 3; ground_truth := false;
     fast_mode := true; skip_save := false |}.

Definition good_host : host :=
  {| has_default_cube := true;
     scene_graph := inr data;
     InnerScript.walk := Samples.walk;
     data_objects := [{| node := chair_tree; has_parent := false |}];
     scene_objects := scene;
     cleanup_objects := [chair_mesh; chair_empty];
     has_bsdf := true;
     has_camera := false;
     has_cycles := true;
     has_eevee := false;
     has_taa_render_samples := false;
     has_use_gtao := false;
     has_use_ssr := false;
     has_use_bloom := false;
     has_volumetric_samples := false;
     host_failure := None |}.

(** The same host, where joining the meshes of the chair fails: event 18
    of the run is [bpy.ops.object.join()]. *)
Definition join_failure_host : host :=
  {| has_default_cube := true;
     scene_graph := inr data;
     InnerScript.walk := Samples.walk;
     data_objects := [{| node := chair_tree; has_parent := false |}];
     scene_objects := scene;
     cleanup_objects := [chair_mesh; chair_empty];
     has_bsdf := true;
     has_camera := false;
     has_cycles := true;
     has_eevee := false;
     has_taa_render_samples := false;
     has_use_gtao := false;
     has_use_bloom := false;
     has_use_ssr := false;
     has_volumetric_samples := false;
     host_failure :=
       Some (18%nat, OtherException "RuntimeError: Operator bpy.ops.object.join.poll() failed, context is incorrect") |}.


End MoreSamples.

(* ================================================================= *)
(** * Properties *)

(** ** Lists *)

Module ListFacts.

Lemma find_first {A} (f : A -> bool) (before : list A) (x : A) (after : list A) :
  (forall y, In y before -> f y = false) -> f x = true ->
  find f (before ++ x :: after) = Some x.
Proof.
  intros Hb Hx. induction before as [|y before IH]; simpl.
  - now rewrite Hx.
  - rewrite (Hb y) by (now left). apply IH. intros z Hz. apply Hb. now right.
Qed.

(** [find] returns the first element that passes the test. *)
Lemma find_first_index {A} (f : A -> bool) (l : list A) (x : A) :
  find f l = Some x <->
  exists i,
    nth_error l i = Some x /\ f x = true
    /\ forall j y, (j < i)%nat -> nth_error l j = Some y -> f y = false.
Proof.
  induction l as [|a l IH]; simpl.
  - split; [discriminate | intros [[|i] [H _]]; discriminate].
  - destruct (f a) eqn:Fa.
    + split.
      * intros [= ->]. exists 0%nat. repeat split; auto. intros j y Hj. lia.
      * intros [[|i] [H1 [H2 H3]]].
        -- simpl in H1. congruence.
        -- specialize (H3 0%nat a (Nat.lt_0_succ i) eq_refl). congruence.
    + rewrite IH. split.
      * intros [i [H1 [H2 H3]]]. exists (S i). repeat split; auto.
        intros [|j] y Hj Hy; simpl in Hy; [congruence|].
        apply (H3 j); [lia | exact Hy].
      * intros [[|i] [H1 [H2 H3]]]; simpl in H1; [congruence|].
        exists i. repeat split; auto.
        intros j y Hj Hy. apply (H3 (S j)); [lia | exact Hy].
Qed.

Lemma find_all_false {A} (f : A -> bool) (l : list A) :
  (forall x, In x l -> f x = false) -> find f l = None.
Proof.
  induction l as [|a l IH]; simpl; intros H; [reflexivity|].
  rewrite (H a) by (now left). apply IH. intros x Hx. apply H. now right.
Qed.

Lemma flat_map_agree {A B} (f g : A -> list B) (l : list A) :
  (forall a, In a l -> f a = g a) -> flat_map f l = flat_map g l.
Proof.
  induction l as [|a l IH]; simpl; intros H; [reflexivity|].
  rewrite (H a) by (now left). f_equal. apply IH. intros b Hb. apply H. now right.
Qed.

End ListFacts.

(** ** Strings *)

Module PyStrFacts.
Import PyStr.

Lemma endswith_refl (s : string) : endswith s s = true.
Proof. destruct s; cbn [endswith]; rewrite String.eqb_refl; reflexivity. Qed.

Lemma endswith_cons (c : ascii) (s suffix : string) :
  endswith s suffix = true -> endswith (String c s) suffix = true.
Proof. intros H. cbn [endswith]. rewrite H. apply orb_true_r. Qed.

Lemma endswith_app (p s suffix : string) :
  endswith s suffix = true -> endswith (p ++ s) suffix = true.
Proof.
  intros H. induction p as [|c p IH].
  - exact H.
  - apply endswith_cons, IH.
Qed.

(** [endswith] is the usual suffix relation. *)
Lemma endswith_spec (s suffix : string) :
  endswith s suffix = true <-> exists p, s = (p ++ suffix)%string.
Proof.
  split.
  - induction s as [|c s IH]; cbn [endswith]; intros H.
    + rewrite orb_false_r in H. apply String.eqb_eq in H.
      exists ""%string. subst. reflexivity.
    + apply orb_true_iff in H. destruct H as [H|H].
      * apply String.eqb_eq in H. exists ""%string. rewrite <- H. reflexivity.
      * destruct (IH H) as [p ->]. exists (String c p). reflexivity.
  - intros [p ->]. apply endswith_app, endswith_refl.
Qed.

Lemma app_assoc_str (a b c : string) :
  ((a ++ b) ++ c)%string = (a ++ (b ++ c))%string.
Proof. induction a as [|x a IH]; simpl; [reflexivity | now rewrite IH]. Qed.

Lemma list_of_app (a b : string) :
  list_ascii_of_string (a ++ b) = list_ascii_of_string a ++ list_ascii_of_string b.
Proof. induction a as [|x a IH]; simpl; [reflexivity | now rewrite IH]. Qed.

(** [str(n)] is a non-empty run of digits, with a minus sign in front of
    a negative number. *)
Lemma string_of_uint_digits (d : Decimal.uint) :
  Forall digit_or_minus (list_ascii_of_string (NilEmpty.string_of_uint d)).
Proof.
  induction d; simpl; constructor; try assumption;
    unfold digit_or_minus; simpl; tauto.
Qed.

Lemma str_of_int_chars (n : Z) :
  Forall digit_or_minus (list_ascii_of_string (str_of_int n)).
Proof.
  assert (U : forall d, Forall digit_or_minus
                          (list_ascii_of_string (NilZero.string_of_uint d))).
  { intros d. unfold NilZero.string_of_uint.
    destruct d; try apply string_of_uint_digits.
    simpl. constructor; [unfold digit_or_minus; simpl; tauto | constructor]. }
  unfold str_of_int, NilZero.string_of_int.
  destruct (Z.to_int n); simpl.
  - apply U.
  - constructor; [unfold digit_or_minus; simpl; tauto | apply U].
Qed.

Lemma str_of_int_nonempty (n : Z) : str_of_int n <> ""%string.
Proof.
  unfold str_of_int, NilZero.string_of_int.
  destruct (Z.to_int n) as [d|d]; [|discriminate].
  unfold NilZero.string_of_uint. destruct d; discriminate.
Qed.

End PyStrFacts.

(** ** Dicts *)

Module PyDictFacts.
Import PyDict.

Section Dict.
Context {V : Type}.
Implicit Types (d : dict V) (k : string) (v : V).

Lemma get_set_same d k v : get k (set k v d) = Some v.
Proof.
  induction d as [|[k' v'] d IH]; simpl.
  - now rewrite String.eqb_refl.
  - destruct (String.eqb k' k) eqn:E; simpl.
    + now rewrite String.eqb_refl.
    + now rewrite E.
Qed.

Lemma get_set_other d k k' v : k <> k' -> get k' (set k v d) = get k' d.
Proof.
  intros N. induction d as [|[k0 v0] d IH]; simpl.
  - apply String.eqb_neq in N. now rewrite N.
  - destruct (String.eqb k0 k) eqn:E; simpl.
    + apply String.eqb_eq in E. subst k0.
      apply String.eqb_neq in N. now rewrite N.
    + destruct (String.eqb k0 k'); [reflexivity | exact IH].
Qed.

Lemma mem_true_iff d k : mem k d = true <-> exists v, get k d = Some v.
Proof.
  unfold mem. destruct (get k d) as [v|].
  - split; [eauto | reflexivity].
  - split; [discriminate | intros [v H]; discriminate].
Qed.

Lemma mem_false_iff d k : mem k d = false <-> get k d = None.
Proof.
  unfold mem. destruct (get k d); split; congruence.
Qed.

Lemma get_in d k v : get k d = Some v -> In (k, v) d.
Proof.
  induction d as [|[k' v'] d IH]; simpl; [discriminate|].
  destruct (String.eqb k' k) eqn:E.
  - apply String.eqb_eq in E. intros [= ->]. left. now subst.
  - intros H. right. now apply IH.
Qed.

Lemma in_mem d k v : In (k, v) d -> mem k d = true.
Proof.
  intros H. apply mem_true_iff.
  induction d as [|[k' v'] d IH]; simpl in *; [contradiction|].
  destruct (String.eqb k' k) eqn:E; [eauto|].
  destruct H as [H|H]; [|now apply IH].
  inversion H; subst. rewrite String.eqb_refl in E. discriminate.
Qed.
End Dict.

End PyDictFacts.

(** ** [os.path.join] *)

Module OsPathFacts.
Import PyStr OsPath PyStrFacts.

(** Joining keeps the ending of a last component. *)
Lemma join2_endswith (path b suffix : string) :
  endswith b suffix = true -> endswith (join2 path b) suffix = true.
Proof.
  intros H. unfold join2.
  destruct (startswith b "/"); [exact H|].
  destruct (String.eqb path "" || endswith path "/").
  - now apply endswith_app.
  - apply endswith_app. now apply (endswith_app "/").
Qed.

Lemma join_single (a b : string) : join a [b] = join2 a b.
Proof. reflexivity. Qed.


End OsPathFacts.

(** ** [find_glb_files] *)

Module FindGlbFacts.
Import PyStr PyDict OsPath PlaceInBlender ListFacts PyStrFacts PyDictFacts OsPathFacts.

Implicit Types (glb_files : dict string) (walk : list walk_entry).

Lemma glb_add_other root glb_files file :
  endswith file ".glb" = false -> glb_add root glb_files file = glb_files.
Proof. intros H. unfold glb_add. now rewrite H. Qed.

(** The nested loops are one loop over [glb_entries]. *)
Lemma glb_walk_step_entries root dirs files glb_files :
  glb_walk_step glb_files (root, dirs, files)
  = fold_left (fun d e => glb_add (fst e) d (snd e))
              (map (pair root) (filter (fun file => endswith file ".glb") files))
              glb_files.
Proof.
  unfold glb_walk_step. revert glb_files.
  induction files as [|file files IH]; intros glb_files; simpl; [reflexivity|].
  destruct (endswith file ".glb") eqn:E; simpl.
  - apply IH.
  - rewrite glb_add_other by exact E. apply IH.
Qed.

Lemma find_glb_files_entries walk glb_files :
  fold_left glb_walk_step walk glb_files
  = fold_left (fun d e => glb_add (fst e) d (snd e)) (glb_entries walk) glb_files.
Proof.
  revert glb_files.
  induction walk as [|[[root dirs] files] walk IH]; intros glb_files; simpl.
  - reflexivity.
  - rewrite fold_left_app, <- (glb_walk_step_entries root dirs). apply IH.
Qed.

Lemma in_glb_entries walk root file :
  In (root, file) (glb_entries walk) <->
  exists dirs files,
    In (root, dirs, files) walk /\ In file files /\ endswith file ".glb" = true.
Proof.
  unfold glb_entries. rewrite in_flat_map. split.
  - intros [[[r dirs] files] [Hw Hm]].
    apply in_map_iff in Hm. destruct Hm as [f [Hf Hin]].
    injection Hf as -> ->. apply filter_In in Hin.
    exists dirs, files. tauto.
  - intros [dirs [files [Hw [Hf He]]]].
    exists (root, dirs, files). split; [exact Hw|].
    apply in_map. apply filter_In. tauto.
Qed.

(** What the loop leaves under a key: what was there before, else the
    path of the first entry with that key. *)
Lemma get_fold_glb_add (es : list (string * string)) glb_files k :
  Forall (fun e => endswith (snd e) ".glb" = true) es ->
  get k (fold_left (fun d e => glb_add (fst e) d (snd e)) es glb_files)
  = match get k glb_files with
    | Some v => Some v
    | None =>
        match find (fun e => String.eqb (split_head (snd e) ".") k) es with
        | Some e => Some (join (fst e) [snd e])
        | None => None
        end
    end.
Proof.
  intros Hall. revert glb_files.
  induction Hall as [|[root file] es Hglb _ IH]; intros glb_files; simpl.
  - destruct (get k glb_files); reflexivity.
  - simpl in Hglb. rewrite IH. unfold glb_add. rewrite Hglb.
    destruct (mem (split_head file ".") glb_files) eqn:M; simpl.
    + destruct (get k glb_files) as [v|] eqn:G; [reflexivity|].
      destruct (String.eqb (split_head file ".") k) eqn:E; [|reflexivity].
      apply String.eqb_eq in E. subst k.
      apply mem_true_iff in M. destruct M as [v M]. congruence.
    + apply mem_false_iff in M.
      destruct (String.eqb (split_head file ".") k) eqn:E.
      * apply String.eqb_eq in E. subst k.
        rewrite get_set_same, M. reflexivity.
      * apply String.eqb_neq in E. rewrite get_set_other by exact E.
        reflexivity.
Qed.

Lemma glb_entries_glb walk :
  Forall (fun e => endswith (snd e) ".glb" = true) (glb_entries walk).
Proof.
  apply Forall_forall. intros [root file] H.
  apply in_glb_entries in H. destruct H as [dirs [files H]]. simpl. tauto.
Qed.

Lemma get_find_glb_files walk k :
  get k (find_glb_files walk)
  = match find (fun e => String.eqb (split_head (snd e) ".") k) (glb_entries walk) with
    | Some e => Some (join (fst e) [snd e])
    | None => None
    end.
Proof.
  unfold find_glb_files.
  rewrite find_glb_files_entries, get_fold_glb_add by apply glb_entries_glb.
  reflexivity.
Qed.

(** C8.  [find_glb_files] maps every file of the walk that ends in
    [".glb"] under its name cut at the first ["."]; of the files sharing
    a key the first one met in the walk is kept (its path is
    [os.path.join(root, file)]) and the later ones are ignored; every
    value of the map ends in [".glb"]. *)
Theorem find_glb_files_first_wins walk :
  (forall root dirs files file,
      In (root, dirs, files) walk -> In file files ->
      endswith file ".glb" = true ->
      mem (split_head file ".") (find_glb_files walk) = true)
  /\ (forall before root file after,
         glb_entries walk = before ++ (root, file) :: after ->
         (forall r f, In (r, f) before ->
                      split_head f "." <> split_head file ".") ->
         get (split_head file ".") (find_glb_files walk)
         = Some (join root [file]))
  /\ (forall k v,
         get k (find_glb_files walk) = Some v ->
         endswith v ".glb" = true
         /\ exists root file,
             In (root, file) (glb_entries walk)
             /\ k = split_head file "." /\ v = join root [file]).
Proof.
  split; [|split].
  - intros root dirs files file Hw Hf He.
    apply mem_true_iff. rewrite get_find_glb_files.
    destruct (find _ (glb_entries walk)) as [e|] eqn:F; [eauto|].
    exfalso.
    assert (Hin : In (root, file) (glb_entries walk))
      by (apply in_glb_entries; eauto).
    apply (find_none _ _ F) in Hin. simpl in Hin.
    rewrite String.eqb_refl in Hin. discriminate.
  - intros before root file after Hsplit Hfirst.
    rewrite get_find_glb_files, Hsplit, find_first; [reflexivity| |].
    + intros [r f] Hin. simpl. apply String.eqb_neq. eauto.
    + simpl. apply String.eqb_refl.
  - intros k v H. rewrite get_find_glb_files in H.
    destruct (find _ (glb_entries walk)) as [[root file]|] eqn:F; [|discriminate].
    injection H as <-. apply find_some in F. destruct F as [Hin Hk].
    simpl in Hk. apply String.eqb_eq in Hk.
    split.
    + simpl. apply join2_endswith.
      apply in_glb_entries in Hin. destruct Hin as [dirs [files Hin]]. tauto.
    + exists root, file. simpl. auto.
Qed.

End FindGlbFacts.

(** ** Loading the scene graph *)

Module LoadJsonFacts.
Import PyStr PyDict PlaceInBlender PyDictFacts.

Implicit Types (data : list item) (it : item) (k : string).

Lemma load_json_snoc data it :
  load_json (data ++ [it]) = load_step (load_json data) it.
Proof. unfold load_json. now rewrite fold_left_app. Qed.

(** The last record decides, when it is not a structural one and carries
    the key. *)
Lemma get_load_json_snoc data it k :
  get k (load_json (data ++ [it]))
  = if negb (in_list (new_object_id it) structural_labels)
       && String.eqb (new_object_id it) k
    then Some it
    else get k (load_json data).
Proof.
  rewrite load_json_snoc. unfold load_step.
  destruct (in_list (new_object_id it) structural_labels); simpl; [reflexivity|].
  destruct (String.eqb (new_object_id it) k) eqn:E.
  - apply String.eqb_eq in E. subst k. apply get_set_same.
  - apply String.eqb_neq in E. now apply get_set_other.
Qed.

Lemma load_json_sound data k it :
  get k (load_json data) = Some it ->
  In it data /\ new_object_id it = k /\ in_list k structural_labels = false.
Proof.
  induction data as [|x data IH] using rev_ind.
  - discriminate.
  - rewrite get_load_json_snoc.
    destruct (in_list (new_object_id x) structural_labels) eqn:S; simpl.
    + intros H. destruct (IH H) as [H1 H2]. split; [|exact H2].
      apply in_or_app. now left.
    + destruct (String.eqb (new_object_id x) k) eqn:E.
      * intros [= ->]. apply String.eqb_eq in E. subst k.
        split; [apply in_or_app; right; now left | tauto].
      * intros H. destruct (IH H) as [H1 H2]. split; [|exact H2].
        apply in_or_app. now left.
Qed.

Lemma load_json_last data it after :
  in_list (new_object_id it) structural_labels = false ->
  (forall it', In it' after -> new_object_id it' <> new_object_id it) ->
  get (new_object_id it) (load_json (data ++ it :: after)) = Some it.
Proof.
  intros S. induction after as [|x after IH] using rev_ind; intros Hafter.
  - rewrite get_load_json_snoc, S, String.eqb_refl. reflexivity.
  - replace (data ++ it :: after ++ [x]) with ((data ++ it :: after) ++ [x])
      by (rewrite <- app_assoc; reflexivity).
    rewrite get_load_json_snoc.
    assert (N : String.eqb (new_object_id x) (new_object_id it) = false).
    { apply String.eqb_neq. apply Hafter. apply in_or_app. right. now left. }
    rewrite N, andb_false_r. apply IH.
    intros it' Hin. apply Hafter. apply in_or_app. now left.
Qed.

(** C3.  Loading the scene graph leaves out every record whose identifier
    is one of the six structural labels and keeps every other record
    under its identifier: a record is stored unless a later record of the
    file carries the same identifier (the later one then takes its
    place), so with identifiers unique within the room every
    non-structural record is stored; nothing else is stored. *)
Theorem load_json_filters_structural data :
  structural_labels
  = ["south_wall"; "north_wall"; "east_wall"; "west_wall";
     "middle of the room"; "ceiling"]
  /\ (forall it,
         In it data ->
         in_list (new_object_id it) structural_labels = true ->
         mem (new_object_id it) (load_json data) = false)
  /\ (forall before it after,
         data = before ++ it :: after ->
         in_list (new_object_id it) structural_labels = false ->
         (forall it', In it' after -> new_object_id it' <> new_object_id it) ->
         get (new_object_id it) (load_json data) = Some it)
  /\ (NoDup (map new_object_id data) ->
      forall it,
        In it data ->
        in_list (new_object_id it) structural_labels = false ->
        get (new_object_id it) (load_json data) = Some it)
  /\ (forall k it,
         get k (load_json data) = Some it ->
         In it data /\ new_object_id it = k
         /\ in_list k structural_labels = false).
Proof.
  split; [reflexivity|]. split; [|split; [|split]].
  - intros it _ S. apply mem_false_iff.
    destruct (get (new_object_id it) (load_json data)) as [it'|] eqn:G;
      [|reflexivity].
    apply load_json_sound in G. destruct G as [_ [_ G]]. congruence.
  - intros before it after -> S Hafter. now apply load_json_last.
  - intros Hnodup it Hin S.
    apply in_split in Hin. destruct Hin as [before [after ->]].
    apply load_json_last; [exact S|].
    intros it' Hin' Heq.
    rewrite map_app in Hnodup. simpl in Hnodup.
    apply NoDup_remove_2 in Hnodup. apply Hnodup.
    apply in_or_app. right. rewrite <- Heq. now apply in_map.
  - intros k it. apply load_json_sound.
Qed.

End LoadJsonFacts.

(** ** Importing the assets *)

Module ImportFacts.
Import PyStr PyDict PlaceInBlender PyStrFacts PyDictFacts.

Implicit Types (its : list (string * item)) (glb : dict string).

Lemma missing_glb_warning_inj a b :
  missing_glb_warning a = missing_glb_warning b -> a = b.
Proof. unfold missing_glb_warning. simpl. congruence. Qed.

Lemma collect_imports_list its glb p item_id :
  In (p, item_id) (fst (collect_imports its glb)) <->
  In item_id (map fst its) /\ get item_id glb = Some p.
Proof.
  induction its as [|[id it] its IH]; simpl.
  - tauto.
  - destruct (collect_imports its glb) as [import_list out] eqn:C. simpl in IH.
    destruct (get id glb) as [q|] eqn:G; simpl; rewrite IH.
    + split.
      * intros [[= -> ->]|[H1 H2]]; auto.
      * intros [[->|H1] H2]; [left; congruence | right; auto].
    + split.
      * intros [H1 H2]; auto.
      * intros [[->|H1] H2]; [congruence | auto].
Qed.

Lemma collect_imports_out its glb ev :
  In ev (snd (collect_imports its glb)) <->
  exists item_id,
    In item_id (map fst its) /\ get item_id glb = None
    /\ ev = Print (missing_glb_warning item_id).
Proof.
  induction its as [|[id it] its IH]; simpl.
  - split; [tauto | intros [x [[] _]]].
  - destruct (collect_imports its glb) as [import_list out] eqn:C. simpl in IH.
    destruct (get id glb) as [q|] eqn:G; simpl; rewrite IH.
    + split.
      * intros [x [H1 [H2 H3]]]. exists x. auto.
      * intros [x [[->|H1] [H2 H3]]]; [congruence | exists x; auto].
    + split.
      * intros [<-|[x [H1 [H2 H3]]]]; [exists id; auto | exists x; auto].
      * intros [x [[->|H1] [H2 H3]]]; [left; auto | right; exists x; auto].
Qed.

Lemma collect_imports_length its glb :
  (List.length (fst (collect_imports its glb))
   + List.length (snd (collect_imports its glb)))%nat
  = List.length its.
Proof.
  induction its as [|[id it] its IH]; simpl; [reflexivity|].
  destruct (collect_imports its glb) as [import_list out]. simpl in IH.
  destruct (get id glb); simpl; lia.
Qed.

Lemma batch_import_assets_events objects_in_room directory_path glb ev :
  In ev (batch_import_assets objects_in_room directory_path glb) <->
  ev = PrintDict "glb_file_paths" glb
  \/ In ev (snd (collect_imports (items objects_in_room) glb))
  \/ exists p item_id,
      In (p, item_id) (fst (collect_imports (items objects_in_room) glb))
      /\ ev = ImportGltf p item_id.
Proof.
  unfold batch_import_assets.
  destruct (collect_imports (items objects_in_room) glb) as [import_list out].
  simpl. rewrite in_app_iff, in_map_iff. split.
  - intros [H|[H|[[p id] [H1 H2]]]]; eauto 6.
  - intros [H|[H|[p [id [H1 H2]]]]]; eauto.
    right. right. exists (p, id). auto.
Qed.

(** C4.  [batch_import_assets] goes through every object of the filtered
    scene graph: an object whose identifier has no entry in the file map
    gets the warning and no import, an object whose identifier has one is
    imported from that file under its identifier (and gets no warning);
    the call handles all the objects, one warning or one import each,
    whatever is missing. *)
Theorem batch_import_assets_skips_missing
    (objects_in_room : dict item) (directory_path : string) glb :
  let trace := batch_import_assets objects_in_room directory_path glb in
  (forall item_id,
      mem item_id objects_in_room = true ->
      (get item_id glb = None ->
       In (Print (missing_glb_warning item_id)) trace
       /\ forall p, ~ In (ImportGltf p item_id) trace)
      /\ (forall p,
             get item_id glb = Some p ->
             In (ImportGltf p item_id) trace
             /\ ~ In (Print (missing_glb_warning item_id)) trace))
  /\ List.length trace = S (List.length (items objects_in_room)).
Proof.
  intros trace. split.
  - intros item_id Hmem.
    assert (Hkey : In item_id (map fst (items objects_in_room))).
    { apply mem_true_iff in Hmem. destruct Hmem as [v Hv].
      apply get_in in Hv. change item_id with (fst (item_id, v)).
      now apply in_map. }
    split.
    + intros Hnone. split.
      * apply batch_import_assets_events. right. left.
        apply collect_imports_out. exists item_id. auto.
      * intros p Hin. apply batch_import_assets_events in Hin.
        destruct Hin as [H|[H|[q [id [H1 H2]]]]]; try discriminate.
        -- apply collect_imports_out in H. destruct H as [x [_ [_ H]]].
           discriminate.
        -- injection H2 as <- <-. apply collect_imports_list in H1.
           destruct H1 as [_ H1]. congruence.
    + intros p Hsome. split.
      * apply batch_import_assets_events. right. right.
        exists p, item_id. split; [|reflexivity].
        apply collect_imports_list. auto.
      * intros Hin. apply batch_import_assets_events in Hin.
        destruct Hin as [H|[H|[q [id [H1 H2]]]]]; try discriminate.
        apply collect_imports_out in H. destruct H as [x [_ [Hx H]]].
        assert (item_id = x) by (apply missing_glb_warning_inj; congruence).
        congruence.
  - unfold trace, batch_import_assets.
    pose proof (collect_imports_length (items objects_in_room) glb) as L.
    destruct (collect_imports (items objects_in_room) glb) as [import_list out].
    simpl in *. rewrite length_app, length_map. lia.
Qed.

End ImportFacts.

(** ** The outer script *)

Module RunFacts.
Import PyStr PyDict OsPath PyStrFacts OsPathFacts RunMetaverseLocal.

Section Script.
Variable PROJECT_ROOT : string.
Variables (w : world) (room_name : string) (step_number : Z).
Variables (ground_truth : string) (fast_mode skip_save : bool).

Let run := run_local_metaverse PROJECT_ROOT w room_name step_number
             ground_truth fast_mode skip_save.
Let cmd := blender_cmd PROJECT_ROOT room_name step_number
             ground_truth fast_mode skip_save.

(** C5.  When the room folder does not exist, or it exists and
    [scene_graph-backtracked.json] inside it does not, the call prints the
    matching error message and returns at once: that line is its only
    effect, so no subprocess is launched and nothing is written. *)
Theorem run_local_metaverse_missing_input :
  (path_exists w (room_path PROJECT_ROOT room_name) = false ->
   run = ([Print ("Error: Room folder " ++ room_path PROJECT_ROOT room_name
                    ++ " does not exist")%string],
          Returned PyNone))
  /\ (path_exists w (room_path PROJECT_ROOT room_name) = true ->
      path_exists w (join (room_path PROJECT_ROOT room_name)
                          ["scene_graph-backtracked.json"]) = false ->
      run = ([Print ("Error: Backtracked JSON file "
                       ++ join (room_path PROJECT_ROOT room_name)
                               ["scene_graph-backtracked.json"]
                       ++ " does not exist")%string],
             Returned PyNone))
  /\ (path_exists w (room_path PROJECT_ROOT room_name) = false
      \/ path_exists w (join (room_path PROJECT_ROOT room_name)
                             ["scene_graph-backtracked.json"]) = false ->
      forall ev, In ev (fst run) -> ~ launches ev).
Proof.
  change (join (room_path PROJECT_ROOT room_name) ["scene_graph-backtracked.json"])
    with (backtracked_json_path PROJECT_ROOT room_name).
  unfold run, run_local_metaverse, try_body. cbv zeta.
  split; [|split].
  - intros ->. reflexivity.
  - intros -> ->. reflexivity.
  - intros H ev.
    destruct (path_exists w (room_path PROJECT_ROOT room_name)); simpl.
    + destruct H as [H|H]; [discriminate|]. rewrite H. simpl.
      intros [<-|[]] [c Hc]. discriminate.
    + intros [<-|[]] [c Hc]. discriminate.
Qed.

(** C6.  The call returns [None] on every path (missing inputs, failed
    subprocess, exception, success), so the script always ends with status
    0; when the subprocess ends with a non-zero return code the call has
    launched it, shown its output and logged its stderr, and nothing
    more. *)
Theorem run_local_metaverse_returns_none :
  snd run = Returned PyNone
  /\ snd (main PROJECT_ROOT w room_name step_number
               ground_truth fast_mode skip_save) = 0%Z
  /\ (forall result,
         path_exists w (room_path PROJECT_ROOT room_name) = true ->
         path_exists w (backtracked_json_path PROJECT_ROOT room_name) = true ->
         subprocess_run w cmd = inr result ->
         returncode result <> 0%Z ->
         fst run
         = [ Print ("Processing room: " ++ room_name)%string;
             Print ("Using scene graph: "
                      ++ backtracked_json_path PROJECT_ROOT room_name)%string;
             Print ("Running: " ++ cmd)%string;
             SubprocessRun cmd;
             Print "BLENDER TIME DELAY OUTPUT";
             Print (stdout result);
             Print ("Error running place_in_blender.py: " ++ stderr result)%string ]).
Proof.
  assert (R : snd run = Returned PyNone).
  { unfold run, run_local_metaverse, try_body.
    destruct (path_exists w (room_path PROJECT_ROOT room_name)); simpl;
      [|reflexivity].
    destruct (path_exists w (backtracked_json_path PROJECT_ROOT room_name));
      simpl; [|reflexivity].
    destruct (subprocess_run w _) as [e|result]; [reflexivity|].
    destruct (returncode result =? 0)%Z; reflexivity. }
  split; [exact R|]. split.
  - unfold main. fold run. destruct run as [tr o]. simpl in R. now rewrite R.
  - intros result H1 H2 H3 H4.
    unfold run, run_local_metaverse, try_body. rewrite H1, H2. simpl.
    fold cmd. rewrite H3.
    apply Z.eqb_neq in H4. rewrite H4. reflexivity.
Qed.

End Script.



End RunFacts.

(** ** Placing the meshes *)

Module BatchFacts.
Import PyStr PyDict PlaceInBlender ListFacts PyDictFacts.

Implicit Types (objects_in_room : dict item) (transform_map : dict transform).
Implicit Types (obj : bobject) (objs : list bobject) (name : string).

(** *** Matching names to scene-graph entries *)

Lemma find_key_mem objects_in_room name k :
  find_key name objects_in_room = Some k -> mem k objects_in_room = true.
Proof. intros H. apply find_some in H. tauto. Qed.

Lemma matched_transform_some objects_in_room name k it :
  find_key name objects_in_room = Some k ->
  get k objects_in_room = Some it ->
  matched_transform objects_in_room name = Some (transform_of it).
Proof. intros H1 H2. unfold matched_transform. now rewrite H1, H2. Qed.

Lemma matched_transform_none objects_in_room name :
  matched_transform objects_in_room name = None <->
  find_key name objects_in_room = None.
Proof.
  unfold matched_transform.
  destruct (find_key name objects_in_room) as [k|] eqn:F; [|tauto].
  apply find_key_mem, mem_true_iff in F. destruct F as [it ->]. simpl.
  split; discriminate.
Qed.

Lemma transform_step_matched objects_in_room transform_map obj :
  transform_step objects_in_room transform_map obj
  = match matched_transform objects_in_room (obj_name obj) with
    | Some t => set (obj_name obj) t transform_map
    | None => transform_map
    end.
Proof.
  unfold transform_step, matched_transform.
  destruct (find_key (obj_name obj) objects_in_room); [|reflexivity].
  destruct (get s objects_in_room); reflexivity.
Qed.

(** The map built by the loop: a name of the list is bound to what it is
    matched to, any other name is unbound. *)
Lemma get_build_transform_map objects_in_room objs name :
  get name (build_transform_map objects_in_room objs)
  = if existsb (fun o => String.eqb (obj_name o) name) objs
    then matched_transform objects_in_room name
    else None.
Proof.
  unfold build_transform_map.
  induction objs as [|o objs IH] using rev_ind; [reflexivity|].
  rewrite fold_left_app, existsb_app. simpl.
  rewrite transform_step_matched, orb_false_r.
  destruct (String.eqb (obj_name o) name) eqn:E.
  - apply String.eqb_eq in E. subst name. rewrite orb_true_r.
    destruct (matched_transform objects_in_room (obj_name o)) as [t|] eqn:M.
    + apply get_set_same.
    + rewrite IH. now destruct (existsb _ objs).
  - rewrite orb_false_r. apply String.eqb_neq in E.
    destruct (matched_transform objects_in_room (obj_name o)) as [t|].
    + rewrite get_set_other by exact E. exact IH.
    + exact IH.
Qed.

Lemma get_transform_of_member objects_in_room objs obj :
  In obj objs ->
  get (obj_name obj) (build_transform_map objects_in_room objs)
  = matched_transform objects_in_room (obj_name obj).
Proof.
  intros Hin. rewrite get_build_transform_map.
  replace (existsb _ objs) with true; [reflexivity|].
  symmetry. apply existsb_exists. exists obj. split; [exact Hin|].
  apply String.eqb_refl.
Qed.

(** *** The events of the three loops *)

Lemma in_apply_locations transform_map objs ev :
  In ev (apply_locations transform_map objs) <->
  exists o t,
    In o objs /\ get (obj_name o) transform_map = Some t
    /\ ev = SetLocation o (t_position t).
Proof.
  unfold apply_locations. rewrite in_flat_map. split.
  - intros [o [Ho Hev]].
    destruct (get (obj_name o) transform_map) as [t|] eqn:G; [|destruct Hev].
    destruct Hev as [<-|[]]. eauto.
  - intros [o [t [Ho [G ->]]]]. exists o. rewrite G. split; [exact Ho | now left].
Qed.

Lemma in_apply_scales transform_map objs ev :
  In ev (fst (apply_scales transform_map objs)) ->
  exists o t s,
    In o objs /\ get (obj_name o) transform_map = Some t /\ ev = SetScale o s.
Proof.
  induction objs as [|o objs IH]; simpl; [tauto|].
  destruct (get (obj_name o) transform_map) as [t|] eqn:G.
  - destruct (is_mesh o).
    + destruct (scale_factors (t_size t) (obj_dimensions o)) as [e|sf];
        simpl; [tauto|].
      destruct (apply_scales transform_map objs) as [tr r]. simpl in *.
      intros [<-|H].
      * exists o, t, sf. auto.
      * destruct (IH H) as [o' [t' [s' [H1 H2]]]]. exists o', t', s'. auto.
    + intros H. destruct (IH H) as [o' [t' [s' [H1 H2]]]]. exists o', t', s'. auto.
  - intros H. destruct (IH H) as [o' [t' [s' [H1 H2]]]]. exists o', t', s'. auto.
Qed.

Lemma apply_scales_keep_selection transform_map objs :
  forallb keeps_selection (fst (apply_scales transform_map objs)) = true.
Proof.
  induction objs as [|o objs IH]; simpl; [reflexivity|].
  destruct (get (obj_name o) transform_map) as [t|]; [|exact IH].
  destruct (is_mesh o); [|exact IH].
  destruct (scale_factors (t_size t) (obj_dimensions o)); [reflexivity|].
  destruct (apply_scales transform_map objs). simpl in *. exact IH.
Qed.

Lemma apply_locations_keep_selection transform_map objs :
  forallb keeps_selection (apply_locations transform_map objs) = true.
Proof.
  unfold apply_locations.
  induction objs as [|o objs IH]; simpl; [reflexivity|].
  destruct (get (obj_name o) transform_map); simpl; exact IH.
Qed.

(** *** What the host turns *)

Lemma rotations_skip sel (tr rest : list event) :
  forallb keeps_selection tr = true ->
  rotations_applied sel (tr ++ rest) = rotations_applied sel rest.
Proof.
  induction tr as [|ev tr IH]; simpl; [reflexivity|].
  intros H. apply andb_true_iff in H. destruct H as [H1 H2].
  destruct ev; try discriminate; now apply IH.
Qed.

Lemma rotations_none sel (tr : list event) :
  forallb keeps_selection tr = true -> rotations_applied sel tr = [].
Proof.
  intros H. rewrite <- (app_nil_r tr). now rewrite rotations_skip.
Qed.

Lemma rotations_reset sel (tr rest : list event) :
  forallb turns_nothing tr = true ->
  rotations_applied sel (tr ++ SelectAllDeselect :: rest)
  = rotations_applied [] rest.
Proof.
  revert sel. induction tr as [|ev tr IH]; intros sel; simpl; [reflexivity|].
  intros H. apply andb_true_iff in H. destruct H as [H1 H2].
  destruct ev; try discriminate; now apply IH.
Qed.

Lemma clear_parents_turn_nothing objs :
  forallb turns_nothing (clear_parents objs) = true.
Proof.
  unfold clear_parents. simpl. rewrite forallb_app.
  apply andb_true_iff. split.
  - induction objs; simpl; auto.
  - destruct objs; reflexivity.
Qed.

(** A block of the rotation loop turns its object alone. *)
Lemma rotations_apply_rotations transform_map objs sel (rest : list event) :
  forallb keeps_selection rest = true ->
  rotations_applied sel (apply_rotations transform_map objs ++ rest)
  = flat_map (fun o =>
                match get (obj_name o) transform_map with
                | Some t => [(o, t_rotation t, AxisZ)]
                | None => []
                end) objs.
Proof.
  intros Hrest. unfold apply_rotations. revert sel.
  induction objs as [|o objs IH]; intros sel; simpl.
  - now apply rotations_none.
  - destruct (get (obj_name o) transform_map) as [t|]; simpl.
    + f_equal. apply IH.
    + apply IH.
Qed.

(** The rotations of a whole run of [batch_process_meshes]: one per
    matched mesh, about Z, by the angle of its transform. *)
Lemma rotations_batch_process_meshes objects_in_room scene_objects :
  rotations_applied [] (fst (batch_process_meshes objects_in_room scene_objects))
  = flat_map (fun o =>
                match matched_transform objects_in_room (obj_name o) with
                | Some t => [(o, t_rotation t, AxisZ)]
                | None => []
                end) (mesh_objects scene_objects).
Proof.
  unfold batch_process_meshes.
  pose proof (apply_scales_keep_selection
                (build_transform_map objects_in_room (mesh_objects scene_objects))
                (mesh_objects scene_objects)) as Hs.
  destruct (apply_scales _ (mesh_objects scene_objects)) as [scales r].
  cbn [fst] in *.
  change ([SelectAllDeselect] ++ ?x) with (SelectAllDeselect :: x).
  rewrite rotations_reset by apply clear_parents_turn_nothing.
  rewrite rotations_skip by apply apply_locations_keep_selection.
  rewrite rotations_apply_rotations by exact Hs.
  apply flat_map_agree. intros o Ho.
  now rewrite get_transform_of_member.
Qed.

(** *** Where the events of a run come from *)

Lemma in_clear_parents objs ev :
  In ev (clear_parents objs) -> keeps_selection ev = false \/
  ev = ParentClear \/ ev = TransformApply \/ ev = OriginSet
  \/ exists o, ev = SetActive o.
Proof.
  unfold clear_parents. intros [<-|H]; [now left|].
  apply in_app_or in H. destruct H as [H|H].
  - apply in_map_iff in H. destruct H as [o [<- _]]. now left.
  - destruct objs as [|first objs]; [destruct H|].
    simpl in H. intuition (subst; eauto).
Qed.

Lemma in_apply_rotations transform_map objs ev :
  In ev (apply_rotations transform_map objs) ->
  keeps_selection ev = false \/ exists o, ev = SetActive o.
Proof.
  unfold apply_rotations. rewrite in_flat_map. intros [o [_ H]].
  destruct (get (obj_name o) transform_map); [|destruct H].
  simpl in H. intuition (subst; eauto).
Qed.

Lemma in_batch_process_meshes objects_in_room scene_objects ev :
  In ev (fst (batch_process_meshes objects_in_room scene_objects)) <->
  let MSH_OBJS := mesh_objects scene_objects in
  let transform_map := build_transform_map objects_in_room MSH_OBJS in
  In ev (clear_parents MSH_OBJS) \/ ev = SelectAllDeselect
  \/ In ev (apply_locations transform_map MSH_OBJS)
  \/ In ev (apply_rotations transform_map MSH_OBJS)
  \/ In ev (fst (apply_scales transform_map MSH_OBJS)).
Proof.
  unfold batch_process_meshes. cbv zeta.
  destruct (apply_scales _ (mesh_objects scene_objects)) as [scales r].
  cbn [fst]. rewrite !in_app_iff. simpl. intuition auto.
Qed.

Lemma set_location_in_batch objects_in_room scene_objects obj loc :
  In (SetLocation obj loc)
     (fst (batch_process_meshes objects_in_room scene_objects)) <->
  In obj (mesh_objects scene_objects)
  /\ exists t, matched_transform objects_in_room (obj_name obj) = Some t
               /\ loc = t_position t.
Proof.
  rewrite in_batch_process_meshes. cbv zeta. split.
  - intros [H|[H|[H|[H|H]]]].
    + apply in_clear_parents in H.
      destruct H as [H|[H|[H|[H|[o H]]]]]; discriminate.
    + discriminate.
    + apply in_apply_locations in H. destruct H as [o [t [Ho [G E]]]].
      injection E as <- ->. split; [exact Ho|]. exists t.
      now rewrite <- (get_transform_of_member _ _ _ Ho).
    + apply in_apply_rotations in H. destruct H as [H|[o H]]; discriminate.
    + apply in_apply_scales in H. destruct H as [o [t [s [_ [_ H]]]]].
      discriminate.
  - intros [Ho [t [M ->]]]. right. right. left.
    apply in_apply_locations. exists obj, t.
    rewrite (get_transform_of_member _ _ _ Ho). auto.
Qed.

Lemma set_scale_in_batch objects_in_room scene_objects obj s :
  In (SetScale obj s)
     (fst (batch_process_meshes objects_in_room scene_objects)) ->
  In obj (mesh_objects scene_objects)
  /\ exists t, matched_transform objects_in_room (obj_name obj) = Some t.
Proof.
  rewrite in_batch_process_meshes. cbv zeta.
  intros [H|[H|[H|[H|H]]]].
  - apply in_clear_parents in H.
    destruct H as [H|[H|[H|[H|[o H]]]]]; discriminate.
  - discriminate.
  - apply in_apply_locations in H. destruct H as [o [t [_ [_ H]]]]. discriminate.
  - apply in_apply_rotations in H. destruct H as [H|[o H]]; discriminate.
  - apply in_apply_scales in H. destruct H as [o [t [s' [Ho [G E]]]]].
    injection E as <- _. split; [exact Ho|]. exists t.
    now rewrite <- (get_transform_of_member _ _ _ Ho).
Qed.

Lemma rotation_in_batch objects_in_room scene_objects obj v a :
  In (obj, v, a)
     (rotations_applied
        [] (fst (batch_process_meshes objects_in_room scene_objects))) <->
  In obj (mesh_objects scene_objects)
  /\ exists t, matched_transform objects_in_room (obj_name obj) = Some t
               /\ v = t_rotation t /\ a = AxisZ.
Proof.
  rewrite rotations_batch_process_meshes, in_flat_map. split.
  - intros [o [Ho H]].
    destruct (matched_transform objects_in_room (obj_name o)) as [t|] eqn:M;
      [|destruct H].
    destruct H as [H|[]]. injection H as -> <- <-. eauto.
  - intros [Ho [t [M [-> ->]]]]. exists obj. rewrite M. split; [exact Ho | now left].
Qed.

(** *** Matching, rotation and scale of a mesh *)

(** C2.  The scene-graph entry of a mesh is looked up under the first of
    its name, its name without ["-joined"], without [".001"] and without
    [".002"] that is a key of the filtered scene graph, and the transform
    of the mesh comes from that entry; a mesh whose four variants all miss
    gets no position, no rotation and no scale. *)
Theorem transform_key_is_first_variant objects_in_room scene_objects obj :
  In obj (mesh_objects scene_objects) ->
  let name := obj_name obj in
  let variants :=
    [ name; remove_all name "-joined"; remove_all name ".001";
      remove_all name ".002" ] in
  let transform_map :=
    build_transform_map objects_in_room (mesh_objects scene_objects) in
  let trace := fst (batch_process_meshes objects_in_room scene_objects) in
  (forall k,
      find_key name objects_in_room = Some k <->
      exists i,
        nth_error variants i = Some k /\ mem k objects_in_room = true
        /\ forall j k', (j < i)%nat -> nth_error variants j = Some k' ->
                        mem k' objects_in_room = false)
  /\ (forall k,
         find_key name objects_in_room = Some k ->
         exists it,
           get k objects_in_room = Some it
           /\ get name transform_map = Some (transform_of it)
           /\ In (SetLocation obj (position_x it, position_y it, position_z it))
                 trace
           /\ In (obj, t_rotation (transform_of it), AxisZ)
                 (rotations_applied [] trace))
  /\ ((forall k, In k variants -> mem k objects_in_room = false) ->
      get name transform_map = None
      /\ (forall loc, ~ In (SetLocation obj loc) trace)
      /\ (forall v a, ~ In (obj, v, a) (rotations_applied [] trace))
      /\ (forall s, ~ In (SetScale obj s) trace)).
Proof.
  intros Hin. cbv zeta. split; [|split].
  - intros k.
    apply (find_first_index (fun k => mem k objects_in_room)
             (key_variants (obj_name obj)) k).
  - intros k Hk.
    destruct (proj1 (mem_true_iff _ _) (find_key_mem _ _ _ Hk)) as [it Hit].
    pose proof (matched_transform_some _ _ _ _ Hk Hit) as M.
    exists it. split; [exact Hit|]. split; [|split].
    + now rewrite get_transform_of_member.
    + apply set_location_in_batch. split; [exact Hin|].
      exists (transform_of it). auto.
    + apply rotation_in_batch. split; [exact Hin|].
      exists (transform_of it). auto.
  - intros Hmiss.
    assert (M : matched_transform objects_in_room (obj_name obj) = None).
    { apply matched_transform_none. unfold find_key.
      apply find_all_false. exact Hmiss. }
    split; [|split; [|split]].
    + now rewrite get_transform_of_member.
    + intros loc H. apply set_location_in_batch in H.
      destruct H as [_ [t [H _]]]. congruence.
    + intros v a H. apply rotation_in_batch in H.
      destruct H as [_ [t [H _]]]. congruence.
    + intros s H. apply set_scale_in_batch in H.
      destruct H as [_ [t H]]. congruence.
Qed.

(** C1 (as the code has it).  The host turns exactly the meshes matched to
    a scene-graph record, each once per occurrence, about the Z axis, by
    the record's angle read in degrees plus a half turn:
    [z_angle * pi / 180 + pi] radians. *)
Theorem rotation_is_z_angle_plus_half_turn objects_in_room scene_objects obj v a :
  In (obj, v, a)
     (rotations_applied
        [] (fst (batch_process_meshes objects_in_room scene_objects))) <->
  In obj (mesh_objects scene_objects)
  /\ exists k it,
      find_key (obj_name obj) objects_in_room = Some k
      /\ get k objects_in_room = Some it
      /\ v = (Q2R (rotation_z_angle it) * PI / 180 + PI)%R
      /\ a = AxisZ.
Proof.
  assert (E : forall it,
             t_rotation (transform_of it)
             = (Q2R (rotation_z_angle it) * PI / 180 + PI)%R).
  { intros it. simpl. unfold Rdiv. ring. }
  rewrite rotation_in_batch. split.
  - intros [Hin [t [M [-> ->]]]]. split; [exact Hin|].
    unfold matched_transform in M.
    destruct (find_key (obj_name obj) objects_in_room) as [k|]; [|discriminate].
    destruct (get k objects_in_room) as [it|] eqn:G; [|discriminate].
    injection M as <-. exists k, it. auto.
  - intros [Hin [k [it [F [G [-> ->]]]]]]. split; [exact Hin|].
    exists (transform_of it). split; [|auto].
    now apply matched_transform_some with (k := k).
Qed.

(** *** Division by the bounding box *)

Lemma py_div_spec (a b : Q) :
  (~ b == 0 /\ py_div a b = inr (a / b)%Q)
  \/ (b == 0 /\ py_div a b = inl ZeroDivisionError).
Proof.
  unfold py_div. destruct (Qeq_bool b 0) eqn:E.
  - right. split; [now apply Qeq_bool_iff | reflexivity].
  - left. split; [|reflexivity].
    intros H. apply Qeq_bool_iff in H. congruence.
Qed.

Lemma scale_factors_spec (scale : size) (bx by_ bz : Q) :
  (nonzero_dimensions (bx, by_, bz)
   /\ scale_factors scale (bx, by_, bz)
      = inr ((size_length scale / bx)%Q, (size_width scale / by_)%Q,
             (size_height scale / bz)%Q))
  \/ (~ nonzero_dimensions (bx, by_, bz)
      /\ scale_factors scale (bx, by_, bz) = inl ZeroDivisionError).
Proof.
  unfold scale_factors, nonzero_dimensions.
  destruct (py_div_spec (size_length scale) bx) as [[Nx ->]|[Zx ->]];
    [|right; tauto].
  destruct (py_div_spec (size_width scale) by_) as [[Ny ->]|[Zy ->]];
    [|right; tauto].
  destruct (py_div_spec (size_height scale) bz) as [[Nz ->]|[Zz ->]];
    [|right; tauto].
  left. tauto.
Qed.

(** The scale loop ends without an exception exactly when every mesh it
    scales has a bounding box without a zero; then it scales them all. *)
Lemma apply_scales_total transform_map objs :
  (snd (apply_scales transform_map objs) = None <->
   forall o t,
     In o objs -> get (obj_name o) transform_map = Some t ->
     is_mesh o = true -> nonzero_dimensions (obj_dimensions o))
  /\ (snd (apply_scales transform_map objs) = None
      \/ snd (apply_scales transform_map objs) = Some ZeroDivisionError)
  /\ (snd (apply_scales transform_map objs) = None ->
      forall o t,
        In o objs -> get (obj_name o) transform_map = Some t ->
        is_mesh o = true ->
        exists sf,
          scale_factors (t_size t) (obj_dimensions o) = inr sf
          /\ In (SetScale o sf) (fst (apply_scales transform_map objs))).
Proof.
  induction objs as [|o objs [IH1 [IH2 IH3]]]; simpl.
  - split; [|split]; [split; [intros _ o t [] | reflexivity] | now left
                      | intros _ o t []].
  - destruct (get (obj_name o) transform_map) as [t|] eqn:G.
    2:{ split; [|split]; [|exact IH2|].
        - rewrite IH1. split.
          + intros H o' t' [<-|Hin]; [congruence | now apply H].
          + intros H o' t' Hin. apply H. now right.
        - intros H o' t' [<-|Hin]; [congruence | now apply IH3]. }
    destruct (is_mesh o) eqn:Mo.
    2:{ split; [|split]; [|exact IH2|].
        - rewrite IH1. split.
          + intros H o' t' [<-|Hin]; [congruence | now apply H].
          + intros H o' t' Hin. apply H. now right.
        - intros H o' t' [<-|Hin]; [congruence | now apply IH3]. }
    destruct (obj_dimensions o) as [[bx by_] bz] eqn:D.
    destruct (scale_factors_spec (t_size t) bx by_ bz) as [[N ->]|[N ->]].
    + destruct (apply_scales transform_map objs) as [tr r]. simpl in *.
      split; [|split]; [|exact IH2|].
      * rewrite IH1. split.
        -- intros H o' t' [<-|Hin] G' M'; [now rewrite D | now apply (H o' t')].
        -- intros H o' t' Hin. apply H. now right.
      * intros H o' t' [<-|Hin] G' M'.
        -- rewrite D. assert (t' = t) by congruence. subst t'.
           destruct (scale_factors_spec (t_size t) bx by_ bz) as [[_ ->]|[N' _]];
             [|contradiction].
           eexists. split; [reflexivity | now left].
        -- destruct (IH3 H o' t' Hin G' M') as [sf [S1 S2]].
           exists sf. split; [exact S1 | now right].
    + simpl. split; [|split]; [|now right|discriminate].
      split; [discriminate|].
      intros H. exfalso. apply N. rewrite <- D. apply (H o t); auto.
Qed.

(** C9.  The scale tuple divides the target length, width and height by
    the x, y and z of the bounding box without a guard: a zero divisor
    raises [ZeroDivisionError].  So the scale loop of
    [batch_process_meshes] ends without an exception exactly when every
    mesh matched to a scene-graph entry has a bounding box with no zero on
    any of the three axes (and then every such mesh is scaled by the three
    quotients), and [rescale_object] does exactly when its mesh has one. *)
Theorem scale_total_iff_nonzero_dimensions objects_in_room scene_objects :
  let result := batch_process_meshes objects_in_room scene_objects in
  (snd result = None <->
   forall obj,
     In obj (mesh_objects scene_objects) ->
     find_key (obj_name obj) objects_in_room <> None ->
     nonzero_dimensions (obj_dimensions obj))
  /\ (snd result = None \/ snd result = Some ZeroDivisionError)
  /\ (snd result = None ->
      forall obj k it,
        In obj (mesh_objects scene_objects) ->
        find_key (obj_name obj) objects_in_room = Some k ->
        get k objects_in_room = Some it ->
        let '(bx, by_, bz) := obj_dimensions obj in
        In (SetScale obj ((size_length (size_in_meters it) / bx)%Q,
                          (size_width (size_in_meters it) / by_)%Q,
                          (size_height (size_in_meters it) / bz)%Q))
           (fst result))
  /\ (forall obj scale,
         (snd (rescale_object obj scale) = None <->
          (is_mesh obj = true -> nonzero_dimensions (obj_dimensions obj)))
         /\ (snd (rescale_object obj scale) = None
             \/ snd (rescale_object obj scale) = Some ZeroDivisionError)).
Proof.
  intros result.
  set (MSH_OBJS := mesh_objects scene_objects).
  set (transform_map := build_transform_map objects_in_room MSH_OBJS).
  destruct (apply_scales_total transform_map MSH_OBJS) as [T1 [T2 T3]].
  assert (Hsnd : snd result = snd (apply_scales transform_map MSH_OBJS)).
  { unfold result, batch_process_meshes. fold MSH_OBJS. fold transform_map.
    now destruct (apply_scales transform_map MSH_OBJS). }
  assert (Hfst : forall ev, In ev (fst (apply_scales transform_map MSH_OBJS)) ->
                            In ev (fst result)).
  { intros ev H. apply in_batch_process_meshes. cbv zeta. tauto. }
  assert (Hmesh : forall o, In o MSH_OBJS -> is_mesh o = true).
  { intros o H. apply filter_In in H. tauto. }
  rewrite Hsnd. split; [|split; [exact T2|split]].
  - rewrite T1. split.
    + intros H obj Hin Hkey.
      destruct (matched_transform objects_in_room (obj_name obj)) as [t|] eqn:M.
      * apply (H obj t); auto.
        unfold transform_map. now rewrite get_transform_of_member.
      * apply matched_transform_none in M. contradiction.
    + intros H o t Hin G _. apply H; [exact Hin|].
      unfold transform_map in G. rewrite get_transform_of_member in G by exact Hin.
      intros F. apply matched_transform_none in F. congruence.
  - intros Hnone obj k it Hin F G.
    pose proof (matched_transform_some _ _ _ _ F G) as M.
    destruct (T3 Hnone obj (transform_of it) Hin) as [sf [S1 S2]]; auto.
    { unfold transform_map. now rewrite get_transform_of_member. }
    destruct (obj_dimensions obj) as [[bx by_] bz].
    destruct (scale_factors_spec (t_size (transform_of it)) bx by_ bz)
      as [[_ E]|[_ E]]; rewrite E in S1; [|discriminate].
    injection S1 as <-. apply Hfst. exact S2.
  - intros obj scale. unfold rescale_object.
    destruct (is_mesh obj).
    + destruct (obj_dimensions obj) as [[bx by_] bz].
      destruct (scale_factors_spec scale bx by_ bz) as [[N ->]|[N ->]]; simpl.
      * split; [tauto | now left].
      * split; [|now right].
        split; [discriminate | intros H; exfalso; apply N, H; reflexivity].
    + simpl. split; [|now left]. split; [discriminate | reflexivity].
Qed.

End BatchFacts.

(** ** The command lines *)

Module ArgparseFacts.
Import PyStr PyDict Argparse ListFacts.

Implicit Types (p : parser) (a : argument) (ns : namespace).

(** One step of the parser on an option with a value and on a switch. *)
Lemma parse_store p a type f v rest seen ns :
  find_argument p f = Some a -> act a = Store type ->
  startswith v "-" = false ->
  parse_tokens p (f :: v :: rest) seen ns
  = match type v with
    | inl _ => None
    | inr x => parse_tokens p rest (flag a :: seen) (set (dest a) x ns)
    end.
Proof. intros H1 H2 H3. simpl. now rewrite H1, H2, H3. Qed.



(** A token without a leading dash is no option of a parser whose options
    all start with one. *)
Lemma value_is_no_flag p tok :
  forallb (fun a => startswith (flag a) "-") p = true ->
  startswith tok "-" = false -> find_argument p tok = None.
Proof.
  intros Hp Htok. unfold find_argument. apply find_all_false.
  intros a Ha. apply String.eqb_neq. intros E.
  rewrite forallb_forall in Hp. specialize (Hp a Ha). congruence.
Qed.

Lemma outer_value tok :
  startswith tok "-" = false ->
  find_argument RunMetaverseLocal.parser tok = None.
Proof. now apply value_is_no_flag. Qed.

Lemma inner_value tok :
  startswith tok "-" = false ->
  find_argument PlaceInBlender.parser tok = None.
Proof. now apply value_is_no_flag. Qed.

Lemma in_fragment_value p tok :
  startswith tok "-" = false -> find_argument p tok = None ->
  in_fragment p tok = true.
Proof. intros H1 H2. unfold in_fragment. now rewrite H2, H1. Qed.







End ArgparseFacts.

(** ** The theorems at work on the sample room *)

Module Checks.
Import PyStr PyDict OsPath Argparse PlaceInBlender Samples.

Example sample_load : objects_in_room = [("chair", chair); ("table", table)].
Proof. reflexivity. Qed.

Example sample_glb :
  find_glb_files walk
  = [("chair", "/r/assets/chair.glb"); ("table", "/r/assets/sub/table.glb")].
Proof. reflexivity. Qed.

Example sample_key : find_key "chair-joined" objects_in_room = Some "chair".
Proof. reflexivity. Qed.

Example sample_replace :
  remove_all "x-join-joineded" "-joined" = "x-joined"
  /\ remove_all "a.001.001" ".001" = "a"
  /\ split_head "chair.001.glb" "." = "chair".
Proof. repeat split; reflexivity. Qed.

Lemma find_glb_files_first_wins_witness :
  get "chair" (find_glb_files walk) = Some "/r/assets/chair.glb".
Proof.
  apply (proj1 (proj2 (FindGlbFacts.find_glb_files_first_wins walk))
           [] "/r/assets" "chair.glb"
           [("/r/assets", "chair.001.glb"); ("/r/assets/sub", "table.glb")]).
  - reflexivity.
  - intros r f [].
Defined.

Lemma load_json_filters_structural_witness :
  get "chair" (load_json data) = Some chair
  /\ mem "south_wall" (load_json data) = false.
Proof.
  destruct (LoadJsonFacts.load_json_filters_structural data)
    as [_ [Hout [_ [Hin _]]]].
  split.
  - apply (Hin ltac:(repeat constructor; simpl; intuition discriminate) chair).
    + left. reflexivity.
    + reflexivity.
  - apply (Hout south_wall).
    + right. left. reflexivity.
    + reflexivity.
Defined.

Lemma batch_import_assets_skips_missing_witness :
  In (ImportGltf "/r/assets/sub/table.glb" "table")
     (batch_import_assets objects_in_room "/r/assets" (find_glb_files walk))
  /\ In (Print "Warning: No GLB file found for chair")
        (batch_import_assets objects_in_room "/r/assets" []).
Proof.
  split.
  - apply (proj1 (ImportFacts.batch_import_assets_skips_missing
                    objects_in_room "/r/assets" (find_glb_files walk))
             "table" eq_refl).
    reflexivity.
  - apply (proj1 (ImportFacts.batch_import_assets_skips_missing
                    objects_in_room "/r/assets" [])
             "chair" eq_refl).
    reflexivity.
Defined.

Lemma run_local_metaverse_missing_input_witness :
  RunMetaverseLocal.run_local_metaverse
    "/p" empty_world "room_97" 1 "false" false false
  = ([RunMetaverseLocal.Print
        "Error: Room folder /p/3d_utlis/data/room_97 does not exist"],
     RunMetaverseLocal.Returned PyNone).
Proof.
  exact (proj1 (RunFacts.run_local_metaverse_missing_input
                  "/p" empty_world "room_97" 1 "false" false false)
           eq_refl).
Defined.

Lemma run_local_metaverse_returns_none_witness :
  snd (RunMetaverseLocal.run_local_metaverse
         "/p" failing_world "room_97" 1 "false" false false)
  = RunMetaverseLocal.Returned PyNone
  /\ snd (RunMetaverseLocal.main
            "/p" failing_world "room_97" 1 "false" false false) = 0%Z.
Proof.
  destruct (RunFacts.run_local_metaverse_returns_none
              "/p" failing_world "room_97" 1 "false" false false)
    as [H1 [H2 _]].
  split; [exact H1 | exact H2].
Defined.


Example sample_render_paths :
  render_filepath (room_path "/p/3d_utlis" "room_97") true 1
  = "/p/3d_utlis/data/room_97/render_output_groundtruth1.png"
  /\ RunMetaverseLocal.render_output "/p" "room_97" 1
     = "/p/3d_utlis/data/room_97/render_output_step_1.png"
  /\ render_filepath (room_path "/p/3d_utlis" "room_97") false 1
     = RunMetaverseLocal.render_output "/p" "room_97" 1.
Proof. repeat split; reflexivity. Qed.

Lemma chair_mesh_in_scene : In chair_mesh (mesh_objects scene).
Proof. left. reflexivity. Qed.

Lemma transform_key_is_first_variant_witness :
  In (SetLocation chair_mesh (1, 2, 0))
     (fst (batch_process_meshes objects_in_room scene))
  /\ get "lamp" (build_transform_map objects_in_room (mesh_objects scene))
     = None.
Proof.
  split.
  - destruct (proj1 (proj2 (BatchFacts.transform_key_is_first_variant
                              objects_in_room scene chair_mesh
                              chair_mesh_in_scene))
                "chair" eq_refl) as [it [G [_ [L _]]]].
    assert (E : it = chair) by (vm_compute in G; injection G as <-; reflexivity).
    subst it. exact L.
  - apply (proj2 (proj2 (BatchFacts.transform_key_is_first_variant
                           objects_in_room scene lamp_mesh
                           (or_intror (or_introl eq_refl))))).
    intros k Hk. simpl in Hk.
    repeat (destruct Hk as [<-|Hk]; [reflexivity|]). destruct Hk.
Defined.

Lemma rotation_is_z_angle_plus_half_turn_witness :
  In (chair_mesh, (Q2R (rotation_z_angle chair) * PI / 180 + PI)%R, AxisZ)
     (rotations_applied [] (fst (batch_process_meshes objects_in_room scene))).
Proof.
  apply (proj2 (BatchFacts.rotation_is_z_angle_plus_half_turn
                  objects_in_room scene chair_mesh _ AxisZ)).
  split; [exact chair_mesh_in_scene|].
  exists "chair", chair. repeat split; reflexivity.
Defined.

(** C1 as stated fails: the chair asks for 90 degrees and is turned by
    [90 / 180 * pi + pi], half a turn more than [90 * pi / 180]. *)
Lemma rotation_without_offset_counterexample :
  rotations_applied [] (fst (batch_process_meshes objects_in_room scene))
  = [(chair_mesh, (Q2R 90 / 180 * PI + PI)%R, AxisZ)]
  /\ (Q2R 90 / 180 * PI + PI)%R <> (Q2R 90 * PI / 180)%R.
Proof.
  split.
  - rewrite BatchFacts.rotations_batch_process_meshes. reflexivity.
  - intros H. pose proof PI_RGT_0 as P.
    assert (E : (Q2R 90 / 180 * PI + PI - Q2R 90 * PI / 180 = PI)%R)
      by (unfold Rdiv; ring).
    rewrite H in E. unfold Rminus in E. rewrite Rplus_opp_r in E. lra.
Qed.

Lemma scale_total_iff_nonzero_dimensions_witness :
  snd (batch_process_meshes objects_in_room scene) = None
  /\ snd (batch_process_meshes objects_in_room [flat_mesh])
     = Some ZeroDivisionError.
Proof.
  split.
  - apply (proj1 (BatchFacts.scale_total_iff_nonzero_dimensions
                    objects_in_room scene)).
    intros obj [<-|[<-|[]]] _; simpl; repeat split; intros H; discriminate H.
  - destruct (proj1 (proj2 (BatchFacts.scale_total_iff_nonzero_dimensions
                              objects_in_room [flat_mesh]))) as [H|H];
      [|exact H].
    exfalso.
    apply (proj1 (BatchFacts.scale_total_iff_nonzero_dimensions
                    objects_in_room [flat_mesh])) with (obj := flat_mesh) in H.
    + simpl in H. destruct H as [_ [H _]]. apply H. reflexivity.
    + left. reflexivity.
    + discriminate.
Defined.



End Checks.

(* ================================================================= *)
(** * Further properties *)

(** ** Removing a suffix the way [str.replace] does *)

Module SuffixFacts.
Import PyStr PyStrMore PyDict PlaceInBlender Hierarchy.
Import ListFacts PyStrFacts PyDictFacts BatchFacts.

Lemma occurs_cons (c : ascii) (s old : string) :
  occurs (String c s) old = false ->
  startswith (String c s) old = false /\ occurs s old = false.
Proof. cbn [occurs]. intros H. now apply orb_false_iff in H. Qed.

(** Without an occurrence there is nothing to remove. *)
Lemma remove_all_absent (s old : string) :
  occurs s old = false -> remove_all s old = s.
Proof.
  unfold remove_all. induction s as [|c s IH]; [reflexivity|].
  intros H. apply occurs_cons in H. destruct H as [H1 H2].
  cbn [remove_from]. rewrite H1. f_equal. now apply IH.
Qed.

(** A prefix test that reads past [s] into a character it does not
    contain has already succeeded inside [s]. *)
Lemma startswith_fresh (c0 : ascii) (rest s tail : string) :
  lacks rest c0 = true ->
  startswith (s ++ String c0 tail) rest = true -> startswith s rest = true.
Proof.
  revert s. induction rest as [|b rest IH]; intros s L H;
    [destruct s; reflexivity|].
  cbn [lacks] in L. apply andb_true_iff in L. destruct L as [Lb L].
  destruct s as [|a s]; cbn [append startswith] in *.
  - apply andb_true_iff in H. destruct H as [H _].
    rewrite Ascii.eqb_sym in H. rewrite H in Lb. discriminate.
  - apply andb_true_iff in H. destruct H as [Ha H].
    rewrite Ha. now apply IH.
Qed.

(** An occurrence cannot start inside [s] and end in a following copy of
    [old], when the first character of [old] is not repeated in it. *)
Lemma startswith_no_border (c0 : ascii) (rest : string) (a : ascii)
    (s tail : string) :
  lacks rest c0 = true ->
  startswith (String a s) (String c0 rest) = false ->
  startswith (String a s ++ String c0 tail) (String c0 rest) = false.
Proof.
  intros L H. cbn [append startswith] in *.
  destruct (Ascii.eqb a c0); [|reflexivity]. simpl in *.
  destruct (startswith (s ++ String c0 tail) rest) eqn:E; [|reflexivity].
  apply startswith_fresh in E; [congruence | exact L].
Qed.

Lemma remove_from_skip (r tail old : string) :
  remove_from (String.length r) (r ++ tail) old = remove_from 0 tail old.
Proof. induction r as [|c r IH]; [reflexivity | exact IH]. Qed.

Lemma startswith_self (s tail : string) : startswith (s ++ tail) s = true.
Proof.
  induction s as [|c s IH]; [destruct tail; reflexivity|].
  cbn [append startswith]. now rewrite Ascii.eqb_refl, IH.
Qed.

(** [(s + old + tail).replace(old, "")] is [s + tail.replace(old, "")]
    when [old] does not occur in [s] and does not repeat its first
    character. *)
Lemma remove_all_inside (c0 : ascii) (rest s tail : string) :
  lacks rest c0 = true ->
  occurs s (String c0 rest) = false ->
  remove_all (s ++ String c0 rest ++ tail) (String c0 rest)
  = (s ++ remove_all tail (String c0 rest))%string.
Proof.
  intros L. unfold remove_all. induction s as [|a s IH]; intros H.
  - change ("" ++ String c0 rest ++ tail)%string
      with (String c0 (rest ++ tail)).
    cbn [remove_from].
    replace (startswith (String c0 (rest ++ tail)) (String c0 rest)) with true
      by (symmetry; apply (startswith_self (String c0 rest) tail)).
    cbn [String.length]. rewrite Nat.sub_1_r. cbn [Nat.pred].
    apply remove_from_skip.
  - apply occurs_cons in H. destruct H as [H1 H2].
    change (String a s ++ String c0 rest ++ tail)%string
      with (String a (s ++ String c0 (rest ++ tail))).
    cbn [remove_from].
    replace (startswith (String a (s ++ String c0 (rest ++ tail))) (String c0 rest))
      with false
      by (symmetry; apply (startswith_no_border c0 rest a s (rest ++ tail) L H1)).
    cbn [append]. f_equal. now apply IH.
Qed.

Lemma remove_all_suffix (c0 : ascii) (rest s : string) :
  lacks rest c0 = true ->
  occurs s (String c0 rest) = false ->
  remove_all (s ++ String c0 rest) (String c0 rest) = s.
Proof.
  intros L H.
  pose proof (remove_all_inside c0 rest s "" L H) as E.
  assert (N : forall t, (t ++ "")%string = t)
    by (induction t as [|x t IH]; simpl; [reflexivity | now rewrite IH]).
  change (String c0 rest ++ "")%string with (String c0 (rest ++ "")) in E.
  rewrite (N rest) in E. rewrite E. apply N.
Qed.


(** X2.  A mesh that carries a duplicate suffix, [id + ".001"] or
    [id + ".002"], is brought back to [id] as well, provided the suffix
    does not occur in [id] and no earlier variant of the name is a key. *)
Theorem duplicate_name_resolves (objects_in_room : dict item) (id : string) :
  mem id objects_in_room = true ->
  (let name := (id ++ ".001")%string in
   mem name objects_in_room = false ->
   mem (remove_all name "-joined") objects_in_room = false ->
   occurs id ".001" = false ->
   find_key name objects_in_room = Some id)
  /\ (let name := (id ++ ".002")%string in
      mem name objects_in_room = false ->
      mem (remove_all name "-joined") objects_in_room = false ->
      mem (remove_all name ".001") objects_in_room = false ->
      occurs id ".002" = false ->
      find_key name objects_in_room = Some id).
Proof.
  intros Hid. cbv zeta. split.
  - intros H1 H2 Hocc. unfold find_key, key_variants. cbn [find].
    rewrite H1, H2.
    rewrite (remove_all_suffix "." "001" id eq_refl Hocc), Hid. reflexivity.
  - intros H1 H2 H3 Hocc. unfold find_key, key_variants. cbn [find].
    rewrite H1, H2, H3.
    rewrite (remove_all_suffix "." "002" id eq_refl Hocc), Hid. reflexivity.
Qed.

Lemma append_assoc3 (a b c : string) :
  (a ++ b ++ c)%string = ((a ++ b) ++ c)%string.
Proof. symmetry. apply app_assoc_str. Qed.

(** X3.  The variants are not combined: for a mesh called
    [id + ".001-joined"] they are the name, [id + ".001"], [id + "-joined"]
    and the name again, never [id]; so unless one of those three names is
    a key the mesh stays unmatched, whether or not [id] is a key. *)
Theorem suffixes_are_not_combined (objects_in_room : dict item) (id : string) :
  let name := (id ++ ".001-joined")%string in
  occurs id ".001" = false ->
  occurs (id ++ ".001") "-joined" = false ->
  occurs name ".002" = false ->
  key_variants name
  = [name; (id ++ ".001")%string; (id ++ "-joined")%string; name]
  /\ (mem name objects_in_room = false ->
      mem (id ++ ".001") objects_in_room = false ->
      mem (id ++ "-joined") objects_in_room = false ->
      find_key name objects_in_room = None
      /\ matched_transform objects_in_room name = None).
Proof.
  cbv zeta. intros H1 H2 H3.
  assert (V : key_variants (id ++ ".001-joined")
              = [(id ++ ".001-joined")%string; (id ++ ".001")%string;
                 (id ++ "-joined")%string; (id ++ ".001-joined")%string]).
  { assert (R2 : remove_all (id ++ ".001-joined") "-joined"
                 = (id ++ ".001")%string).
    { change (id ++ ".001-joined")%string
        with (id ++ ".001" ++ "-joined")%string.
      rewrite append_assoc3.
      apply (remove_all_suffix "-" "joined" (id ++ ".001") eq_refl H2). }
    assert (R3 : remove_all (id ++ ".001-joined") ".001"
                 = (id ++ "-joined")%string)
      by apply (remove_all_inside "." "001" id "-joined" eq_refl H1).
    assert (R4 : remove_all (id ++ ".001-joined") ".002"
                 = (id ++ ".001-joined")%string)
      by now apply remove_all_absent.
    unfold key_variants. now rewrite R2, R3, R4. }
  split; [exact V|].
  intros M1 M2 M3.
  assert (F : find_key (id ++ ".001-joined") objects_in_room = None).
  { unfold find_key. rewrite V. cbn [find]. now rewrite M1, M2, M3. }
  split; [exact F|]. now apply matched_transform_none.
Qed.

End SuffixFacts.

(** ** The order and the number of the imports *)

Module ImportOrderFacts.
Import PyStr PyStrMore PyDict OsPath PlaceInBlender Hierarchy.
Import ListFacts PyStrFacts PyDictFacts FindGlbFacts LoadJsonFacts ImportFacts.

Section Dict.
Context {V : Type}.
Implicit Types (d : dict V) (k : string) (v : V).

Lemma mem_in_keys d k : mem k d = true <-> In k (keys d).
Proof.
  rewrite mem_true_iff. unfold keys. split.
  - intros [v H]. apply get_in in H. change k with (fst (k, v)). now apply in_map.
  - intros H. apply in_map_iff in H. destruct H as [[k' v] [E H]].
    simpl in E. subst k'. apply in_mem in H. now apply mem_true_iff.
Qed.

Lemma keys_set d k v :
  keys (set k v d) = if mem k d then keys d else keys d ++ [k].
Proof.
  unfold mem. induction d as [|[k' v'] d IH]; simpl; [reflexivity|].
  destruct (String.eqb k' k) eqn:E; simpl.
  - apply String.eqb_eq in E. now subst.
  - rewrite IH. now destruct (get k d).
Qed.
End Dict.

Lemma in_first_occurrences (l : list string) (x : string) :
  In x (first_occurrences l) <-> In x l.
Proof.
  induction l as [|a l IH]; simpl; [tauto|].
  rewrite filter_In, IH. split.
  - tauto.
  - intros [H|H]; [now left|].
    destruct (String.eqb_spec x a) as [->|N]; [now left | right; auto].
Qed.

Lemma first_occurrences_NoDup (l : list string) : NoDup (first_occurrences l).
Proof.
  induction l as [|a l IH]; simpl; constructor.
  - rewrite filter_In. intros [_ H]. now rewrite String.eqb_refl in H.
  - now apply NoDup_filter.
Qed.

Lemma first_occurrences_snoc (l : list string) (x : string) :
  first_occurrences (l ++ [x])
  = if in_list x l then first_occurrences l else first_occurrences l ++ [x].
Proof.
  unfold in_list. induction l as [|a l IH]; simpl; [reflexivity|].
  rewrite IH. destruct (String.eqb_spec x a) as [->|N].
  - simpl.
    destruct (existsb (String.eqb a) l); [reflexivity|].
    rewrite filter_app. simpl. rewrite String.eqb_refl. simpl.
    now rewrite app_nil_r.
  - apply String.eqb_neq in N. simpl.
    destruct (existsb (String.eqb x) l); [reflexivity|].
    rewrite filter_app. simpl. now rewrite N.
Qed.

Lemma keys_load_json (data : list item) :
  keys (load_json data)
  = first_occurrences (filter non_structural (map new_object_id data)).
Proof.
  induction data as [|it data IH] using rev_ind; [reflexivity|].
  rewrite load_json_snoc, map_app, filter_app. unfold load_step.
  cbn [map filter]. unfold non_structural at 2.
  destruct (in_list (new_object_id it) structural_labels); cbn [negb].
  - now rewrite app_nil_r.
  - rewrite keys_set, first_occurrences_snoc, IH.
    destruct (mem (new_object_id it) (load_json data)) eqn:M.
    + apply mem_in_keys in M. rewrite IH in M.
      apply (proj1 (in_first_occurrences _ _)) in M.
      replace (in_list (new_object_id it)
                 (filter non_structural (map new_object_id data))) with true;
        [reflexivity|].
      symmetry. apply existsb_exists. exists (new_object_id it).
      split; [exact M | apply String.eqb_refl].
    + replace (in_list (new_object_id it)
                 (filter non_structural (map new_object_id data))) with false;
        [reflexivity|].
      symmetry. apply not_true_is_false. intros E.
      apply existsb_exists in E. destruct E as [y [Hy E]].
      apply String.eqb_eq in E. subst y.
      apply (proj2 (in_first_occurrences _ _)) in Hy. rewrite <- IH in Hy.
      apply mem_in_keys in Hy. congruence.
Qed.

Lemma mem_load_json (data : list item) (k : string) :
  mem k (load_json data) = true <->
  In k (map new_object_id data) /\ in_list k structural_labels = false.
Proof.
  rewrite mem_in_keys, keys_load_json, in_first_occurrences, filter_In.
  unfold non_structural. rewrite negb_true_iff. tauto.
Qed.

(** X4.  The keys of the loaded scene graph are the identifiers of the
    non-structural records, each once, in the order in which they first
    appear in the file (the record kept under a repeated identifier is the
    last one, the place is the one of the first). *)
Theorem load_json_keys_in_first_order (data : list item) :
  keys (load_json data)
  = first_occurrences (filter non_structural (map new_object_id data))
  /\ NoDup (keys (load_json data))
  /\ (forall k, mem k (load_json data) = true <->
                In k (map new_object_id data)
                /\ in_list k structural_labels = false)
  /\ (forall before it after,
         data = before ++ it :: after ->
         non_structural (new_object_id it) = true ->
         ~ In (new_object_id it) (map new_object_id before) ->
         exists front back,
           keys (load_json data) = front ++ new_object_id it :: back
           /\ front
              = first_occurrences
                  (filter non_structural (map new_object_id before))).
Proof.
  split; [apply keys_load_json|]. split; [|split].
  - rewrite keys_load_json. apply first_occurrences_NoDup.
  - intros k. apply mem_load_json.
  - intros before it after -> Hns Hfresh.
    rewrite keys_load_json, map_app, filter_app.
    cbn [map filter]. rewrite Hns.
    set (front := filter non_structural (map new_object_id before)).
    set (rest := filter non_structural (map new_object_id after)).
    assert (Hin : in_list (new_object_id it) front = false).
    { apply not_true_is_false. intros E. apply existsb_exists in E.
      destruct E as [y [Hy E]]. apply String.eqb_eq in E. subst y.
      apply filter_In in Hy. tauto. }
    clearbody front rest. clear Hfresh Hns.
    induction rest as [|x rest IH] using rev_ind.
    + exists (first_occurrences front), [].
      split; [|reflexivity].
      now rewrite first_occurrences_snoc, Hin.
    + destruct IH as [f [b [E F]]].
      replace (front ++ new_object_id it :: rest ++ [x])
        with ((front ++ new_object_id it :: rest) ++ [x])
        by (rewrite <- app_assoc; reflexivity).
      rewrite first_occurrences_snoc, E.
      destruct (in_list x (front ++ new_object_id it :: rest)).
      * exists f, b. auto.
      * exists f, (b ++ [x]). split; [|exact F].
        rewrite <- app_assoc. reflexivity.
Qed.

(** *** What a run of [batch_import_assets] imports *)

Lemma collect_imports_names (its : list (string * item)) (glb : dict string) :
  map snd (fst (collect_imports its glb))
  = filter (fun id => mem id glb) (map fst its).
Proof.
  induction its as [|[id it] its IH]; simpl; [reflexivity|].
  destruct (collect_imports its glb) as [import_list out]. simpl in IH.
  unfold mem. destruct (get id glb); simpl; now rewrite IH.
Qed.

Lemma collect_imports_prints (its : list (string * item)) (glb : dict string) :
  imported_names (snd (collect_imports its glb)) = [].
Proof.
  induction its as [|[id it] its IH]; simpl; [reflexivity|].
  destruct (collect_imports its glb) as [import_list out]. simpl in IH.
  destruct (get id glb); simpl; exact IH.
Qed.

Lemma imported_names_app (t1 t2 : list event) :
  imported_names (t1 ++ t2) = imported_names t1 ++ imported_names t2.
Proof. unfold imported_names. apply flat_map_app. Qed.

Lemma imported_names_imports (import_list : list (string * string)) :
  imported_names
    (map (fun '(file_path, object_name) => ImportGltf file_path object_name)
         import_list)
  = map snd import_list.
Proof.
  induction import_list as [|[p n] l IH]; simpl; [reflexivity | now rewrite IH].
Qed.

Lemma imported_names_batch (objects_in_room : dict item)
    (directory_path : string) (glb : dict string) :
  imported_names (batch_import_assets objects_in_room directory_path glb)
  = filter (fun id => mem id glb) (keys objects_in_room).
Proof.
  unfold batch_import_assets.
  pose proof (collect_imports_names (items objects_in_room) glb) as N.
  pose proof (collect_imports_prints (items objects_in_room) glb) as P.
  destruct (collect_imports (items objects_in_room) glb) as [import_list out].
  simpl in N, P.
  change (imported_names (PrintDict "glb_file_paths" glb :: ?t))
    with (imported_names t).
  now rewrite imported_names_app, P, imported_names_imports, N.
Qed.

(** X5.  The objects are imported in the order in which their identifiers
    first appear in the scene graph, those without a file left out, and no
    identifier is imported twice, however often the file repeats it. *)
Theorem imports_follow_scene_graph_order (data : list item)
    (directory_path : string) (glb : dict string) :
  imported_names (batch_import_assets (load_json data) directory_path glb)
  = filter (fun id => mem id glb)
           (first_occurrences
              (filter non_structural (map new_object_id data)))
  /\ NoDup (imported_names
              (batch_import_assets (load_json data) directory_path glb)).
Proof.
  rewrite imported_names_batch, keys_load_json.
  split; [reflexivity|].
  apply NoDup_filter, first_occurrences_NoDup.
Qed.

(** X6.  Loading, file discovery and import put together: an object is
    imported exactly when its identifier belongs to a record of the scene
    graph, is no structural label, and is the key of a [.glb] file of the
    walk; the file imported is the first of the walk with that key.  A
    wall or the ceiling is never imported, whatever files exist. *)
Theorem import_end_to_end (data : list item) (directory_path : string)
    (walk : list walk_entry) (p id : string) :
  let trace :=
    batch_import_assets (load_json data) directory_path (find_glb_files walk) in
  (In (ImportGltf p id) trace <->
   In id (map new_object_id data)
   /\ in_list id structural_labels = false
   /\ exists root file,
       find (fun e => String.eqb (split_head (snd e) ".") id) (glb_entries walk)
       = Some (root, file)
       /\ p = join root [file])
  /\ (in_list id structural_labels = true -> ~ In (ImportGltf p id) trace).
Proof.
  cbv zeta.
  assert (E : In (ImportGltf p id)
                (batch_import_assets (load_json data) directory_path
                   (find_glb_files walk)) <->
              In id (map new_object_id data)
              /\ in_list id structural_labels = false
              /\ exists root file,
                  find (fun e => String.eqb (split_head (snd e) ".") id)
                       (glb_entries walk) = Some (root, file)
                  /\ p = join root [file]).
  { rewrite batch_import_assets_events.
    pose proof (mem_load_json data) as M.
    split.
    - intros [H|[H|[q [i [H1 H2]]]]]; try discriminate.
      + apply collect_imports_out in H. destruct H as [x [_ [_ H]]]. discriminate.
      + injection H2 as -> ->. apply collect_imports_list in H1.
        destruct H1 as [H1 H2].
        change (map fst (items (load_json data))) with (keys (load_json data)) in H1.
        apply mem_in_keys, M in H1. destruct H1 as [H1 H3].
        split; [exact H1|]. split; [exact H3|].
        rewrite get_find_glb_files in H2.
        destruct (find _ (glb_entries walk)) as [[root file]|]; [|discriminate].
        injection H2 as <-. eauto.
    - intros [H1 [H2 [root [file [H3 ->]]]]]. right. right.
      exists (join root [file]), id. split; [|reflexivity].
      apply collect_imports_list. split.
      + change (map fst (items (load_json data))) with (keys (load_json data)).
        apply mem_in_keys, M. auto.
      + rewrite get_find_glb_files, H3. reflexivity. }
  split; [exact E|].
  intros S H. apply E in H. destruct H as [_ [H _]]. congruence.
Qed.

End ImportOrderFacts.

(** ** From the outer script to the inner one *)

Module OuterCliFacts.
Import PyStr PyDict OsPath Argparse RunMetaverseLocal Shell OuterCli InnerPaths.
Import ListFacts PyStrFacts PyDictFacts ArgparseFacts.

(** *** [int(str(n))] *)

Lemma digits_value_acc (d : Decimal.uint) (acc : positive) :
  digits_value (Z.pos acc) (NilEmpty.string_of_uint d)
  = Some (Z.pos (Pos.of_uint_acc d acc)).
Proof.
  revert acc. induction d; intros acc; [reflexivity | ..];
    cbn [NilEmpty.string_of_uint digits_value Pos.of_uint_acc];
    match goal with
    | |- context [is_digit ?c] => change (is_digit c) with true
    end;
    cbv iota; rewrite <- IHd; f_equal; try reflexivity;
    match goal with
    | |- context [Z.of_nat ?n] =>
        let v := eval vm_compute in (Z.of_nat n) in
        change (Z.of_nat n) with v
    end;
    lia.
Qed.

Lemma digits_value_uint (d : Decimal.uint) :
  digits_value 0 (NilEmpty.string_of_uint d) = Some (Z.of_N (Pos.of_uint d)).
Proof.
  induction d; [reflexivity | exact IHd | ..];
    cbn [NilEmpty.string_of_uint digits_value Pos.of_uint];
    match goal with
    | |- context [is_digit ?c] => change (is_digit c) with true
    end;
    cbv iota; apply digits_value_acc.
Qed.

Lemma py_int_of_uint (p : positive) :
  py_int (NilEmpty.string_of_uint (Pos.to_uint p)) = inr (Z.pos p)
  /\ startswith (NilEmpty.string_of_uint (Pos.to_uint p)) "-" = false.
Proof.
  pose proof (digits_value_uint (Pos.to_uint p)) as D.
  rewrite DecimalPos.Unsigned.of_to in D.
  pose proof (DecimalPos.Unsigned.to_uint_nonnil p) as N.
  unfold py_int.
  destruct (Pos.to_uint p); [congruence | ..];
    cbn [NilEmpty.string_of_uint] in *; rewrite D; split; reflexivity.
Qed.

Lemma string_of_pos (p : positive) :
  str_of_int (Z.pos p) = NilEmpty.string_of_uint (Pos.to_uint p).
Proof.
  unfold str_of_int. cbn [Z.to_int NilZero.string_of_int].
  unfold NilZero.string_of_uint.
  pose proof (DecimalPos.Unsigned.to_uint_nonnil p) as N.
  destruct (Pos.to_uint p); [congruence | reflexivity ..].
Qed.

(** Printing an integer and reading it back gives the integer. *)
Lemma py_int_str_of_int (n : Z) : py_int (str_of_int n) = inr n.
Proof.
  destruct n as [|p|p].
  - reflexivity.
  - rewrite string_of_pos. apply py_int_of_uint.
  - unfold str_of_int. cbn [Z.to_int NilZero.string_of_int].
    pose proof (DecimalPos.Unsigned.to_uint_nonnil p) as N.
    replace (NilZero.string_of_uint (Pos.to_uint p))
      with (NilEmpty.string_of_uint (Pos.to_uint p))
      by (unfold NilZero.string_of_uint; destruct (Pos.to_uint p);
          [congruence | reflexivity ..]).
    pose proof (digits_value_uint (Pos.to_uint p)) as D.
    rewrite DecimalPos.Unsigned.of_to in D.
    unfold py_int.
    destruct (Pos.to_uint p); [congruence | ..];
      cbn [NilEmpty.string_of_uint] in *; rewrite D; reflexivity.
Qed.

Lemma str_of_int_no_dash (n : Z) :
  (0 <= n)%Z -> startswith (str_of_int n) "-" = false.
Proof.
  destruct n as [|p|p]; intros H; [reflexivity | | lia].
  rewrite string_of_pos. apply py_int_of_uint.
Qed.

Lemma strtobool_no_dash (val : string) (b : Z) :
  strtobool val = inr b -> startswith val "-" = false.
Proof.
  destruct val as [|c val]; [reflexivity|].
  cbn [startswith]. destruct (Ascii.eqb_spec c "-") as [->|N]; [|reflexivity].
  intros H. exfalso. revert H. unfold strtobool. cbn [lower].
  change (lower_ascii "-") with "-"%char.
  unfold in_list. cbn [existsb String.eqb Ascii.eqb Bool.eqb orb andb].
  discriminate.
Qed.

(** *** The words of the command *)

Lemma plain_is_no_blank (c : ascii) : sh_plain c = true -> is_blank c = false.
Proof.
  unfold sh_plain, is_blank. generalize (nat_of_ascii c) as n. intros n H.
  destruct (Nat.eqb_spec n 32) as [->|_]; [discriminate H|].
  destruct (Nat.eqb_spec n 9) as [->|_]; [discriminate H|].
  destruct (Nat.eqb_spec n 10) as [->|_]; [discriminate H | reflexivity].
Qed.

Lemma all_plain_app (a b : string) :
  all_plain (a ++ b) = all_plain a && all_plain b.
Proof.
  induction a as [|c a IH]; [reflexivity|].
  cbn [append all_plain]. now rewrite IH, andb_assoc.
Qed.

Lemma append_nonempty (a b : string) :
  String.eqb b "" = false -> String.eqb (a ++ b) "" = false.
Proof. destruct a; [auto | reflexivity]. Qed.

Lemma shell_word_join2 (a b : string) :
  all_plain a = true -> shell_word b = true -> shell_word (join2 a b) = true.
Proof.
  unfold shell_word. intros Ha Hb.
  apply andb_true_iff in Hb. destruct Hb as [Hn Hb].
  apply negb_true_iff in Hn. unfold join2.
  destruct (startswith b "/"); [now rewrite Hn, Hb|].
  destruct (String.eqb a "" || endswith a "/").
  - now rewrite (append_nonempty a b Hn), all_plain_app, Ha, Hb.
  - rewrite (append_nonempty a ("/" ++ b) eq_refl), !all_plain_app, Ha, Hb.
    reflexivity.
Qed.

Lemma shell_word_script (PROJECT_ROOT : string) :
  all_plain PROJECT_ROOT = true ->
  shell_word (PLACE_IN_BLENDER_SCRIPT PROJECT_ROOT) = true.
Proof.
  intros H. unfold PLACE_IN_BLENDER_SCRIPT, join. cbn [fold_left].
  apply shell_word_join2; [|reflexivity].
  pose proof (shell_word_join2 PROJECT_ROOT "3d_utlis" H eq_refl) as W.
  unfold shell_word in W. apply andb_true_iff in W. tauto.
Qed.

Lemma shell_word_str_of_int (n : Z) : shell_word (str_of_int n) = true.
Proof.
  unfold shell_word. apply andb_true_iff. split.
  - apply negb_true_iff, String.eqb_neq, str_of_int_nonempty.
  - pose proof (str_of_int_chars n) as F.
    induction (str_of_int n) as [|c s IH]; [reflexivity|].
    cbn [list_ascii_of_string] in F. inversion F as [|? ? Hc Hs]; subst.
    cbn [all_plain]. rewrite (IH Hs), andb_true_r.
    unfold digit_or_minus in Hc. simpl in Hc.
    repeat (destruct Hc as [<-|Hc]; [reflexivity|]). destruct Hc.
Qed.

Lemma append_empty_r (s : string) : (s ++ "")%string = s.
Proof. induction s as [|c s IH]; simpl; [reflexivity | now rewrite IH]. Qed.

(** A run of plain characters is read into the current word. *)
Lemma sh_fields_plain (w rest cur : string) :
  all_plain w = true ->
  sh_fields (w ++ rest) cur = sh_fields rest (cur ++ w).
Proof.
  revert cur. induction w as [|c w IH]; intros cur H.
  - now rewrite append_empty_r.
  - cbn [all_plain] in H. apply andb_true_iff in H. destruct H as [Hc Hw].
    cbn [append sh_fields].
    rewrite (plain_is_no_blank c Hc), Hc, (IH _ Hw), app_assoc_str.
    reflexivity.
Qed.

(** Words joined by single blanks are split into these words again. *)
Lemma sh_words_concat (ws : list string) :
  forallb shell_word ws = true ->
  sh_words (String.concat " " ws) = Some ws.
Proof.
  unfold sh_words. induction ws as [|x ws IH]; [reflexivity|].
  cbn [forallb]. intros H. apply andb_true_iff in H. destruct H as [Hx Hws].
  unfold shell_word in Hx. apply andb_true_iff in Hx. destruct Hx as [Hn Hp].
  apply negb_true_iff in Hn.
  destruct ws as [|y ws].
  - cbn [String.concat]. rewrite <- (append_empty_r x) at 1.
    rewrite (sh_fields_plain x "" "" Hp). cbn [append sh_fields].
    now rewrite Hn.
  - change (String.concat " " (x :: y :: ws))
      with (x ++ String " " (String.concat " " (y :: ws)))%string.
    rewrite (sh_fields_plain x _ "" Hp). cbn [append sh_fields].
    change (is_blank " ") with true. cbv iota.
    rewrite (IH Hws), Hn. reflexivity.
Qed.

(** The words after the script in the command the outer script builds. *)
Lemma script_argv_blender_cmd (PROJECT_ROOT room : string) (n : Z)
    (g : string) (fm ss : bool) :
  all_plain PROJECT_ROOT = true ->
  shell_word room = true -> shell_word g = true ->
  sh_words (blender_cmd PROJECT_ROOT room n g fm ss)
  = Some ("python" :: PLACE_IN_BLENDER_SCRIPT PROJECT_ROOT
            :: ["--room_name"; room; "--step_number"; str_of_int n;
                "--ground_truth"; g]
            ++ (if fm then ["--fast_mode"; "true"] else [])
            ++ (if ss then ["--skip_save"; "true"] else [])).
Proof.
  intros HP Hroom Hg.
  pose proof (shell_word_script PROJECT_ROOT HP) as Hscript.
  pose proof (shell_word_str_of_int n) as Hstep.
  rewrite <- sh_words_concat.
  - f_equal. unfold blender_cmd.
    destruct fm, ss; cbn [app String.concat];
      repeat rewrite app_assoc_str; reflexivity.
  - destruct fm, ss; cbn [app forallb];
      rewrite Hscript, Hroom, Hstep, Hg; reflexivity.
Qed.

Lemma inner_fragment (room step g : string) (fm ss : bool) :
  startswith room "-" = false -> startswith step "-" = false ->
  startswith g "-" = false ->
  forallb (in_fragment PlaceInBlender.parser)
    (["--room_name"; room; "--step_number"; step; "--ground_truth"; g]
       ++ (if fm then ["--fast_mode"; "true"] else [])
       ++ (if ss then ["--skip_save"; "true"] else [])) = true.
Proof.
  intros H1 H2 H3.
  pose proof (in_fragment_value _ room H1 (inner_value room H1)) as F1.
  pose proof (in_fragment_value _ step H2 (inner_value step H2)) as F2.
  pose proof (in_fragment_value _ g H3 (inner_value g H3)) as F3.
  destruct fm, ss; cbn [app forallb]; rewrite F1, F2, F3; reflexivity.
Qed.

(** X7.  The inner parser understands what the outer script sends.  When
    the project root, the room name and [ground_truth] are made of
    characters the shell leaves alone (the last two not empty), the shell
    splits [blender_cmd] into [python], the script and the option words;
    and when moreover the room name has no leading dash, the step number
    is not negative and [ground_truth] is a truth value, the parser of
    [place_in_blender.py] accepts these words and gives back the room
    name, the step number, the truth value and the two switches. *)
Theorem inner_accepts_outer_command (PROJECT_ROOT room : string) (n : Z)
    (g : string) (fm ss : bool) (b : Z) :
  all_plain PROJECT_ROOT = true ->
  shell_word room = true -> shell_word g = true ->
  startswith room "-" = false -> (0 <= n)%Z -> strtobool g = inr b ->
  exists argv,
    script_argv (blender_cmd PROJECT_ROOT room n g fm ss) = Some argv
    /\ argv
       = ["--room_name"; room; "--step_number"; str_of_int n;
          "--ground_truth"; g]
           ++ (if fm then ["--fast_mode"; "true"] else [])
           ++ (if ss then ["--skip_save"; "true"] else [])
    /\ parse_args PlaceInBlender.parser argv
       = Parsed [("room_name", PyStr room); ("step_number", PyInt n);
                 ("ground_truth", PyBool (py_bool b));
                 ("fast_mode", PyBool fm); ("skip_save", PyBool ss)].
Proof.
  intros HP Hw Hgw Hroom Hn Hg.
  eexists. split; [|split; [reflexivity|]].
  - unfold script_argv.
    now rewrite (script_argv_blender_cmd PROJECT_ROOT room n g fm ss HP Hw Hgw).
  - pose proof (str_of_int_no_dash n Hn) as Hstep.
    pose proof (strtobool_no_dash g b Hg) as Hgd.
    unfold parse_args.
    rewrite (inner_fragment room (str_of_int n) g fm ss Hroom Hstep Hgd).
    cbn [app].
    erewrite parse_store; [|reflexivity|reflexivity|assumption].
    cbn [type_str].
    erewrite parse_store; [|reflexivity|reflexivity|assumption].
    unfold type_int at 1. rewrite py_int_str_of_int.
    erewrite parse_store; [|reflexivity|reflexivity|assumption].
    unfold type_strtobool at 1. rewrite Hg.
    destruct fm, ss; reflexivity.
Qed.

(** X8.  A [ground_truth] that is no truth value is not caught by the
    outer script but by the inner one: for a value that is one shell word
    without a leading dash, the outer parser stores it as given, and the
    words the shell makes of the command built from it are refused by the
    inner parser. *)
Theorem bad_ground_truth_is_caught_by_inner (PROJECT_ROOT room : string)
    (n : Z) (g : string) (fm ss : bool) (e : exn) :
  all_plain PROJECT_ROOT = true ->
  shell_word room = true -> shell_word g = true ->
  startswith room "-" = false -> (0 <= n)%Z ->
  startswith g "-" = false -> strtobool g = inl e ->
  parse_args RunMetaverseLocal.parser
    ["--room_name"; room; "--step_number"; str_of_int n; "--ground_truth"; g]
  = Parsed [("room_name", PyStr room); ("step_number", PyInt n);
            ("ground_truth", PyStr g);
            ("fast_mode", PyBool false); ("skip_save", PyBool false)]
  /\ exists argv,
      script_argv (blender_cmd PROJECT_ROOT room n g fm ss) = Some argv
      /\ parse_args PlaceInBlender.parser argv = UsageError.
Proof.
  intros HP Hw Hgw Hroom Hn Hgd Hg.
  pose proof (str_of_int_no_dash n Hn) as Hstep. split.
  - unfold parse_args.
    assert (F : forallb (in_fragment RunMetaverseLocal.parser)
                  ["--room_name"; room; "--step_number"; str_of_int n;
                   "--ground_truth"; g] = true).
    { cbn [forallb].
      rewrite (in_fragment_value _ room Hroom (outer_value room Hroom)),
        (in_fragment_value _ _ Hstep (outer_value _ Hstep)),
        (in_fragment_value _ g Hgd (outer_value g Hgd)).
      reflexivity. }
    rewrite F.
    erewrite parse_store; [|reflexivity|reflexivity|assumption].
    cbn [type_str].
    erewrite parse_store; [|reflexivity|reflexivity|assumption].
    unfold type_int at 1. rewrite py_int_str_of_int.
    erewrite parse_store; [|reflexivity|reflexivity|assumption].
    reflexivity.
  - eexists. split.
    + unfold script_argv.
      now rewrite (script_argv_blender_cmd PROJECT_ROOT room n g fm ss HP Hw Hgw).
    + unfold parse_args.
      rewrite (inner_fragment room (str_of_int n) g fm ss Hroom Hstep Hgd).
      cbn [app].
      erewrite parse_store; [|reflexivity|reflexivity|assumption].
      cbn [type_str].
      erewrite parse_store; [|reflexivity|reflexivity|assumption].
      unfold type_int at 1. rewrite py_int_str_of_int.
      erewrite parse_store; [|reflexivity|reflexivity|assumption].
      unfold type_strtobool at 1. rewrite Hg. reflexivity.
Qed.

(** *** Launching *)

Lemma launched_commands_app (t1 t2 : list event) :
  launched_commands (t1 ++ t2) = launched_commands t1 ++ launched_commands t2.
Proof. unfold launched_commands. apply flat_map_app. Qed.

(** X9.  The subprocess is launched once, with [blender_cmd], when the room
    folder and the scene graph both exist, and not at all otherwise;
    whatever the subprocess answers, it is never launched a second
    time. *)
Theorem subprocess_is_launched_at_most_once (PROJECT_ROOT : string)
    (w : world) (room : string) (n : Z) (g : string) (fm ss : bool) :
  launched_commands
    (fst (run_local_metaverse PROJECT_ROOT w room n g fm ss))
  = if path_exists w (room_path PROJECT_ROOT room)
       && path_exists w (backtracked_json_path PROJECT_ROOT room)
    then [blender_cmd PROJECT_ROOT room n g fm ss]
    else [].
Proof.
  unfold run_local_metaverse, try_body.
  destruct (path_exists w (room_path PROJECT_ROOT room)); [|reflexivity].
  destruct (path_exists w (backtracked_json_path PROJECT_ROOT room));
    [|reflexivity].
  cbn [negb andb].
  destruct (subprocess_run w (blender_cmd PROJECT_ROOT room n g fm ss))
    as [e|result].
  - reflexivity.
  - destruct (returncode result =? 0)%Z; cbn [negb fst];
      [|reflexivity].
    destruct (path_exists_after w (render_output PROJECT_ROOT room n));
      reflexivity.
Qed.

(** The two scripts agree on their files: with the inner script in
    [PROJECT_ROOT/3d_utlis], where the outer one launches it, the room
    folder and the scene graph the outer script tests are the ones the
    inner script reads, and outside ground-truth mode the image the outer
    script looks for is the one the inner script renders. *)
Theorem scripts_agree_on_paths (PROJECT_ROOT room : string) (n : Z) :
  let script_dir := join PROJECT_ROOT ["3d_utlis"] in
  PLACE_IN_BLENDER_SCRIPT PROJECT_ROOT = join script_dir ["place_in_blender.py"]
  /\ PlaceInBlender.room_path script_dir room = room_path PROJECT_ROOT room
  /\ scene_graph_path (PlaceInBlender.room_path script_dir room)
     = backtracked_json_path PROJECT_ROOT room
  /\ PlaceInBlender.render_filepath
       (PlaceInBlender.room_path script_dir room) false n
     = render_output PROJECT_ROOT room n.
Proof. repeat split; reflexivity. Qed.

End OuterCliFacts.

(** ** Selecting the meshes under an empty *)

Module HierarchyFacts.
Import PyStr PyDict PlaceInBlender Hierarchy.
Import ListFacts PyDictFacts BatchFacts.

(** Induction on an object with the property known of its children. *)
Lemma onode_children_ind (P : onode -> Prop) :
  (forall o children, Forall P children -> P (ONode o children)) ->
  forall n, P n.
Proof.
  intros H. fix IH 1. intros [o children]. apply H.
  induction children as [|c cs IHcs]; constructor; [apply IH | exact IHcs].
Qed.

Lemma selected_app (t1 t2 : list event) :
  selected (t1 ++ t2) = selected t1 ++ selected t2.
Proof. unfold selected. apply flat_map_app. Qed.

Lemma select_unfold (o : bobject) (children : list onode) :
  select_meshes_under_empty (ONode o children)
  = if is_empty o then flat_map child_events children else [].
Proof. reflexivity. Qed.

Lemma in_selected_flat_map (children : list onode) (m : bobject) :
  In m (selected (flat_map child_events children)) <->
  exists child, In child children /\ In m (selected (child_events child)).
Proof.
  induction children as [|c cs IH]; simpl.
  - split; [intros [] | intros [c [[] _]]].
  - rewrite selected_app, in_app_iff, IH. split.
    + intros [H|[c' [H1 H2]]]; [exists c | exists c']; auto.
    + intros [c' [[<-|H1] H2]]; [left | right; exists c']; auto.
Qed.

Lemma selected_are_under (n : onode) (m : bobject) :
  In m (selected (select_meshes_under_empty n)) <-> mesh_under n m.
Proof.
  revert m. induction n as [o children IH] using onode_children_ind.
  intros m. rewrite select_unfold. split.
  - destruct (is_empty o) eqn:E; [|intros []].
    rewrite in_selected_flat_map. intros [child [Hc Hm]].
    unfold child_events in Hm.
    destruct (is_mesh (node_object child)) eqn:M.
    + destruct Hm as [<-|[]]. now apply mesh_child.
    + apply mesh_deeper with (child := child); auto.
      rewrite Forall_forall in IH. now apply IH.
  - intros H. inversion H as [o' cs child E Hc M|o' cs child m' E Hc M Hu]; subst;
      rewrite E; apply in_selected_flat_map; exists child;
      (split; [exact Hc|]); unfold child_events; rewrite M.
    + now left.
    + rewrite Forall_forall in IH. now apply IH.
Qed.

Lemma mesh_under_is_mesh (n : onode) (m : bobject) :
  mesh_under n m -> is_mesh m = true.
Proof. induction 1; assumption. Qed.

Lemma select_pairs_app (l1 l2 : list bobject) :
  select_pairs (l1 ++ l2) = select_pairs l1 ++ select_pairs l2.
Proof. unfold select_pairs. apply flat_map_app. Qed.

Lemma select_is_pairs (n : onode) :
  select_meshes_under_empty n
  = select_pairs (selected (select_meshes_under_empty n)).
Proof.
  induction n as [o children IH] using onode_children_ind.
  rewrite select_unfold. destruct (is_empty o); [|reflexivity].
  induction IH as [|c cs Hc _ IHcs]; [reflexivity|].
  simpl. rewrite selected_app, select_pairs_app, <- IHcs. f_equal.
  unfold child_events. destruct (is_mesh (node_object c)); [reflexivity | exact Hc].
Qed.

Lemma last_active_pairs (l : list bobject) :
  last_active (select_pairs l)
  = match rev l with m :: _ => Some m | [] => None end.
Proof.
  induction l as [|m l _] using rev_ind; [reflexivity|].
  rewrite select_pairs_app, rev_app_distr. unfold last_active.
  now rewrite fold_left_app.
Qed.

(** X10.  [select_meshes_under_empty] selects exactly the meshes that hang
    under the named object through empties only: a mesh below another mesh
    or below an object of another type is not reached, and under an object
    that is no empty nothing is selected.  Each selected mesh is made
    active at once, so the active object at the end is the last mesh
    selected. *)
Theorem select_meshes_under_empty_reaches (n : onode) :
  (forall m, In m (selected (select_meshes_under_empty n)) <-> mesh_under n m)
  /\ (forall m, In m (selected (select_meshes_under_empty n)) ->
                is_mesh m = true)
  /\ (is_empty (node_object n) = false -> select_meshes_under_empty n = [])
  /\ select_meshes_under_empty n
     = flat_map (fun m => [SelectSet m; SetActive m])
                (selected (select_meshes_under_empty n))
  /\ last_active (select_meshes_under_empty n)
     = match rev (selected (select_meshes_under_empty n)) with
       | m :: _ => Some m
       | [] => None
       end.
Proof.
  split; [|split; [|split; [|split]]].
  - intros m. apply selected_are_under.
  - intros m H. apply selected_are_under in H.
    now apply mesh_under_is_mesh with (n := n).
  - destruct n as [o children]. simpl. now intros ->.
  - apply select_is_pairs.
  - rewrite select_is_pairs at 1. apply last_active_pairs.
Qed.

(** ** More on [batch_process_meshes] *)

(** X11.  Only meshes of the scene are moved, turned or scaled: every
    location, rotation and scale of a run is applied to an object of type
    MESH that belongs to the scene and is matched to a scene-graph
    entry. *)
Theorem only_matched_meshes_are_transformed
    (objects_in_room : dict item) (scene_objects : list bobject)
    (obj : bobject) :
  let trace := fst (batch_process_meshes objects_in_room scene_objects) in
  (exists loc, In (SetLocation obj loc) trace)
  \/ (exists v a, In (obj, v, a) (rotations_applied [] trace))
  \/ (exists s, In (SetScale obj s) trace) ->
  In obj scene_objects /\ obj_type obj = MESH
  /\ find_key (obj_name obj) objects_in_room <> None.
Proof.
  cbv zeta.
  assert (G : In obj (mesh_objects scene_objects) ->
              (exists t, matched_transform objects_in_room (obj_name obj) = Some t) ->
              In obj scene_objects /\ obj_type obj = MESH
              /\ find_key (obj_name obj) objects_in_room <> None).
  { intros Hin [t Ht]. apply filter_In in Hin. destruct Hin as [Hin Hm].
    split; [exact Hin|]. split.
    - unfold is_mesh in Hm. destruct (obj_type obj); congruence.
    - intros F. apply matched_transform_none in F. congruence. }
  intros [[loc H]|[[v [a H]]|[s H]]].
  - apply set_location_in_batch in H. destruct H as [H1 [t [H2 _]]]. eauto.
  - apply rotation_in_batch in H. destruct H as [H1 [t [H2 _]]]. eauto.
  - apply set_scale_in_batch in H. destruct H as [H1 [t H2]]. eauto.
Qed.

(** *** A failing scale loop *)

Lemma scaled_app (t1 t2 : list event) :
  scaled (t1 ++ t2) = scaled t1 ++ scaled t2.
Proof. unfold scaled. apply flat_map_app. Qed.

Lemma scaled_nil (tr : list event) :
  (forall ev, In ev tr -> forall o s, ev <> SetScale o s) -> scaled tr = [].
Proof.
  induction tr as [|ev tr IH]; intros H; [reflexivity|].
  simpl. rewrite IH by (intros e He; apply H; now right).
  destruct ev; try reflexivity.
  exfalso. apply (H (SetScale o s) (or_introl eq_refl) o s). reflexivity.
Qed.

Lemma apply_scales_app (transform_map : dict transform)
    (l1 l2 : list bobject) :
  snd (apply_scales transform_map l1) = None ->
  apply_scales transform_map (l1 ++ l2)
  = (fst (apply_scales transform_map l1) ++ fst (apply_scales transform_map l2),
     snd (apply_scales transform_map l2)).
Proof.
  induction l1 as [|o l1 IH]; simpl.
  - intros _. now destruct (apply_scales transform_map l2).
  - destruct (get (obj_name o) transform_map) as [t|]; [|exact IH].
    destruct (is_mesh o); [|exact IH].
    destruct (scale_factors (t_size t) (obj_dimensions o)) as [e|sf];
      [discriminate|].
    destruct (apply_scales transform_map l1) as [tr r]. simpl in *.
    intros H. rewrite (IH H). reflexivity.
Qed.

Lemma scaled_apply_scales (transform_map : dict transform) (l : list bobject) :
  snd (apply_scales transform_map l) = None ->
  scaled (fst (apply_scales transform_map l))
  = filter (fun o => mem (obj_name o) transform_map && is_mesh o) l.
Proof.
  unfold mem. induction l as [|o l IH]; simpl; [reflexivity|].
  destruct (get (obj_name o) transform_map) as [t|]; [|exact IH].
  destruct (is_mesh o); [|exact IH].
  destruct (scale_factors (t_size t) (obj_dimensions o)) as [e|sf];
    [discriminate|].
  destruct (apply_scales transform_map l) as [tr r]. simpl in *.
  intros H. now rewrite (IH H).
Qed.

Lemma scaled_batch (objects_in_room : dict item) (scene_objects : list bobject) :
  scaled (fst (batch_process_meshes objects_in_room scene_objects))
  = scaled (fst (apply_scales
                   (build_transform_map objects_in_room
                      (mesh_objects scene_objects))
                   (mesh_objects scene_objects))).
Proof.
  unfold batch_process_meshes.
  destruct (apply_scales _ (mesh_objects scene_objects)) as [scales r].
  cbn [fst]. rewrite !scaled_app.
  rewrite (scaled_nil (clear_parents _)), (scaled_nil (apply_locations _ _)),
    (scaled_nil (apply_rotations _ _)); [reflexivity | | |].
  - intros ev H o s E. apply in_apply_rotations in H.
    subst ev. destruct H as [H|[o' H]]; discriminate.
  - intros ev H o s E. apply in_apply_locations in H.
    subst ev. destruct H as [o' [t [_ [_ H]]]]. discriminate.
  - intros ev H o s E. apply in_clear_parents in H.
    subst ev. destruct H as [H|[H|[H|[H|[o' H]]]]]; discriminate.
Qed.

(** X12.  The scale loop stops at the first matched mesh with a zero in its
    bounding box: the run ends with [ZeroDivisionError], the matched meshes
    met before it have been scaled, and neither it nor any mesh after it
    is. *)
Theorem scale_loop_stops_at_first_zero
    (objects_in_room : dict item) (scene_objects : list bobject)
    (before : list bobject) (bad : bobject) (after : list bobject) :
  mesh_objects scene_objects = before ++ bad :: after ->
  (forall o, In o before -> is_matched objects_in_room o = true ->
             nonzero_dimensions (obj_dimensions o)) ->
  is_matched objects_in_room bad = true ->
  ~ nonzero_dimensions (obj_dimensions bad) ->
  let result := batch_process_meshes objects_in_room scene_objects in
  snd result = Some ZeroDivisionError
  /\ scaled (fst result) = filter (is_matched objects_in_room) before.
Proof.
  intros Hsplit Hbefore Hbad Hzero result.
  set (MSH_OBJS := mesh_objects scene_objects) in *.
  set (transform_map := build_transform_map objects_in_room MSH_OBJS).
  assert (Hget : forall o, In o MSH_OBJS ->
                   mem (obj_name o) transform_map = is_matched objects_in_room o).
  { intros o Ho. unfold mem, transform_map, is_matched.
    rewrite get_transform_of_member by exact Ho.
    destruct (matched_transform objects_in_room (obj_name o)) as [t|] eqn:M.
    - destruct (find_key (obj_name o) objects_in_room) eqn:F; [reflexivity|].
      apply matched_transform_none in F. congruence.
    - apply matched_transform_none in M. now rewrite M. }
  assert (Hmesh : forall o, In o MSH_OBJS -> is_mesh o = true).
  { intros o H. apply filter_In in H. tauto. }
  assert (Hsub : forall o, In o before -> In o MSH_OBJS).
  { intros o H. rewrite Hsplit. apply in_or_app. now left. }
  assert (HbadIn : In bad MSH_OBJS).
  { rewrite Hsplit. apply in_or_app. right. now left. }
  assert (Hok : snd (apply_scales transform_map before) = None).
  { apply (proj1 (apply_scales_total transform_map before)).
    intros o t Ho G _. apply Hbefore; [exact Ho|].
    rewrite <- (Hget o (Hsub o Ho)). unfold mem. now rewrite G. }
  assert (Hstop : apply_scales transform_map (bad :: after)
                  = ([], Some ZeroDivisionError)).
  { pose proof (Hget bad HbadIn) as G. rewrite Hbad in G. unfold mem in G.
    cbn [apply_scales].
    destruct (get (obj_name bad) transform_map) as [t|]; [|discriminate].
    rewrite (Hmesh bad HbadIn).
    destruct (obj_dimensions bad) as [[bx by_] bz].
    destruct (scale_factors_spec (t_size t) bx by_ bz) as [[N _]|[_ ->]];
      [contradiction | reflexivity]. }
  assert (E : apply_scales transform_map MSH_OBJS
              = (fst (apply_scales transform_map before),
                 Some ZeroDivisionError)).
  { rewrite Hsplit, apply_scales_app by exact Hok.
    rewrite Hstop. cbn [fst snd]. now rewrite app_nil_r. }
  split.
  - unfold result, batch_process_meshes. fold MSH_OBJS. fold transform_map.
    now rewrite E.
  - unfold result. rewrite scaled_batch. fold MSH_OBJS. fold transform_map.
    rewrite E. cbn [fst]. rewrite scaled_apply_scales by exact Hok.
    apply filter_ext_in. intros o Ho.
    now rewrite (Hget o (Hsub o Ho)), (Hmesh o (Hsub o Ho)), andb_true_r.
Qed.

End HierarchyFacts.

(** ** The inner script as a whole *)

Module InnerScriptFacts.
Import PyStr PyDict OsPath PlaceInBlender Hierarchy InnerPaths InnerScript.
Import ListFacts BatchFacts.

Lemma files_written_skip (filepath : option string) (tr rest : list event) :
  forallb writes_nothing tr = true ->
  files_written filepath (tr ++ rest) = files_written filepath rest.
Proof.
  induction tr as [|ev tr IH]; simpl; [reflexivity|].
  intros H. apply andb_true_iff in H. destruct H as [H1 H2].
  destruct ev; try discriminate; now apply IH.
Qed.

Lemma writes_nothing_app (t1 t2 : list event) :
  forallb writes_nothing t1 = true -> forallb writes_nothing t2 = true ->
  forallb writes_nothing (t1 ++ t2) = true.
Proof. intros H1 H2. rewrite forallb_app. now rewrite H1, H2. Qed.

Lemma writes_nothing_ops (tr : list PlaceInBlender.event) :
  forallb writes_nothing (map Op tr) = true.
Proof. induction tr as [|e tr IH]; simpl; auto. Qed.

Lemma writes_nothing_prologue a h room_path :
  forallb writes_nothing (prologue a h room_path) = true.
Proof. unfold prologue. destruct (has_default_cube h); reflexivity. Qed.

Lemma writes_nothing_join_meshes (objects : list data_object) :
  forallb writes_nothing (join_meshes objects) = true.
Proof.
  unfold join_meshes.
  induction (filter _ (get_highest_parent_objects objects)) as [|p ps IH];
    [reflexivity|].
  cbn [flat_map]. apply writes_nothing_app; [|exact IH].
  cbn [app forallb writes_nothing andb].
  apply writes_nothing_app; [apply writes_nothing_ops | reflexivity].
Qed.

Lemma writes_nothing_delete (objects : list bobject) :
  forallb writes_nothing (delete_empty_objects objects) = true.
Proof.
  unfold delete_empty_objects.
  induction objects as [|o objects IH]; [reflexivity|].
  cbn [flat_map]. apply writes_nothing_app; [|exact IH].
  destruct (is_empty o); reflexivity.
Qed.

Lemma writes_nothing_create_room h width depth height :
  forallb writes_nothing (create_room h width depth height) = true.
Proof. unfold create_room. destruct (has_bsdf h); reflexivity. Qed.

(** [setup_render] sets the render path once, at its end, and writes
    nothing itself. *)
Lemma files_written_setup_render h a room_path filepath (rest : list event) :
  files_written filepath (setup_render h a room_path ++ rest)
  = files_written
      (Some (render_filepath room_path (ground_truth a) (step_number a))) rest.
Proof.
  unfold setup_render. rewrite <- !app_assoc.
  rewrite files_written_skip by (destruct (has_camera h); reflexivity).
  rewrite files_written_skip by reflexivity.
  rewrite files_written_skip; [reflexivity|].
  destruct (fast_mode a); [|reflexivity].
  apply writes_nothing_app; [reflexivity|].
  apply writes_nothing_app; [destruct (has_cycles h); reflexivity|].
  destruct (has_eevee h); [|reflexivity].
  destruct (has_taa_render_samples h), (has_use_gtao h), (has_use_ssr h),
    (has_use_bloom h), (has_volumetric_samples h); reflexivity.
Qed.

Lemma batch_failure_is_zero_division (objects_in_room : dict item)
    (scene : list bobject) :
  snd (batch_process_meshes objects_in_room scene) = None
  \/ snd (batch_process_meshes objects_in_room scene) = Some ZeroDivisionError.
Proof.
  unfold batch_process_meshes.
  destruct (apply_scales_total
              (build_transform_map objects_in_room (mesh_objects scene))
              (mesh_objects scene)) as [_ [H _]].
  destruct (apply_scales _ (mesh_objects scene)) as [scales r]. exact H.
Qed.

Lemma writes_nothing_before_epilogue script_dir a h data :
  forallb writes_nothing (before_epilogue script_dir a h data) = true.
Proof.
  unfold before_epilogue. cbv zeta.
  apply writes_nothing_app; [apply writes_nothing_prologue|].
  apply writes_nothing_app;
    [cbn [forallb writes_nothing andb]; apply writes_nothing_ops|].
  apply writes_nothing_app;
    [apply writes_nothing_join_meshes | apply writes_nothing_ops].
Qed.

Lemma script_body_cases script_dir a h :
  let room_path := PlaceInBlender.room_path script_dir (room_name a) in
  match scene_graph h with
  | inl e => script_body script_dir a h = (prologue a h room_path, Aborted e)
  | inr data =>
      match snd (batch_process_meshes (load_json data) (scene_objects h)) with
      | Some e =>
          script_body script_dir a h
          = (before_epilogue script_dir a h data, Aborted e)
      | None =>
          script_body script_dir a h
          = (before_epilogue script_dir a h data ++ epilogue a h room_path,
             Finished)
      end
  end.
Proof.
  cbv zeta. unfold script_body, before_epilogue.
  destruct (scene_graph h) as [e|data]; [reflexivity|].
  destruct (batch_process_meshes (load_json data) (scene_objects h))
    as [placed [e|]]; cbn [fst snd]; rewrite <- ?app_assoc; reflexivity.
Qed.

(** The run is that of [script_body], cut at the failing call of the host
    when there is one. *)
Lemma script_of_body script_dir a h :
  script script_dir a h
  = match host_failure h with
    | Some (n, e) =>
        if (n <? length (fst (script_body script_dir a h)))%nat
        then (firstn n (fst (script_body script_dir a h)), Aborted e)
        else script_body script_dir a h
    | None => script_body script_dir a h
    end.
Proof.
  unfold script. destruct (script_body script_dir a h) as [tr r].
  destruct (host_failure h) as [[n e]|]; reflexivity.
Qed.

Lemma finished_script_is_body script_dir a h :
  snd (script script_dir a h) = Finished ->
  script script_dir a h = script_body script_dir a h.
Proof.
  rewrite script_of_body.
  destruct (host_failure h) as [[n e]|]; [|reflexivity].
  destruct (n <? length _)%nat; [discriminate | reflexivity].
Qed.








(** X14.  A run that reaches its end writes the [.blend] file, unless
    [skip_save] is set, and then one image, to the path [setup_render] has
    chosen; it writes nothing else. *)
Theorem finished_script_writes_blend_and_render (script_dir : string)
    (a : args) (h : host) :
  let room_path := PlaceInBlender.room_path script_dir (room_name a) in
  snd (script script_dir a h) = Finished ->
  files_written None (fst (script script_dir a h))
  = (if skip_save a then []
     else [blend_filepath room_path (ground_truth a) (step_number a)])
      ++ [render_filepath room_path (ground_truth a) (step_number a)].
Proof.
  cbv zeta. intros F. rewrite (finished_script_is_body _ _ _ F) in F |- *.
  pose proof (script_body_cases script_dir a h) as C. cbv zeta in C.
  destruct (scene_graph h) as [e0|data]; [rewrite C in F; discriminate|].
  destruct (snd (batch_process_meshes (load_json data) (scene_objects h)))
    as [e0|]; rewrite C in F |- *; cbn [fst snd] in F |- *; [discriminate|].
  rewrite files_written_skip by apply writes_nothing_before_epilogue.
  unfold epilogue.
  rewrite (files_written_skip None [Op SelectAllDeselect]) by reflexivity.
  rewrite files_written_skip by apply writes_nothing_delete.
  rewrite files_written_skip by apply writes_nothing_create_room.
  unfold save_blend. destruct (skip_save a); cbn [negb app files_written];
    rewrite files_written_setup_render; reflexivity.
Qed.

(** *** One file per step *)

Lemma append_inv_head (p x y : string) :
  (p ++ x)%string = (p ++ y)%string -> x = y.
Proof.
  induction p as [|c p IH]; simpl; [auto|]. intros [= H]. now apply IH.
Qed.

Lemma append_inv_tail (x y t : string) :
  (x ++ t)%string = (y ++ t)%string -> x = y.
Proof.
  intros H. apply (f_equal list_ascii_of_string) in H.
  rewrite !PyStrFacts.list_of_app in H. apply app_inv_tail in H.
  rewrite <- (string_of_list_ascii_of_string x),
    <- (string_of_list_ascii_of_string y). now rewrite H.
Qed.

Lemma str_of_int_inj (n m : Z) : str_of_int n = str_of_int m -> n = m.
Proof.
  intros H. apply (f_equal Argparse.py_int) in H.
  rewrite !OuterCliFacts.py_int_str_of_int in H. congruence.
Qed.

Lemma join2_relative_inj (path b b' : string) :
  startswith b "/" = false -> startswith b' "/" = false ->
  join2 path b = join2 path b' -> b = b'.
Proof.
  intros H H'. unfold join2. rewrite H, H'.
  destruct (String.eqb path "" || endswith path "/").
  - apply append_inv_head.
  - intros E. apply append_inv_head in E. now apply (append_inv_head "/").
Qed.

(** X15.  Outside ground-truth mode every step has files of its own: two
    runs on the same room share their render path, or their [.blend]
    path, only if they have the same step number.  In ground-truth mode
    the step number plays no part. *)
Theorem one_file_per_step (room_path : string) (n m : Z) :
  (render_filepath room_path false n = render_filepath room_path false m ->
   n = m)
  /\ (blend_filepath room_path false n = blend_filepath room_path false m ->
      n = m)
  /\ render_filepath room_path true n = render_filepath room_path true m
  /\ blend_filepath room_path true n = blend_filepath room_path true m.
Proof.
  split; [|split; [|split; reflexivity]].
  - unfold render_filepath. rewrite !OsPathFacts.join_single. intros H.
    apply join2_relative_inj in H; [|reflexivity|reflexivity].
    apply (append_inv_head "render_output_step_") in H.
    apply append_inv_tail in H. now apply str_of_int_inj.
  - unfold blend_filepath. rewrite !OsPathFacts.join_single. intros H.
    apply join2_relative_inj in H; [|reflexivity|reflexivity].
    apply (append_inv_head "generated_scene_step_") in H.
    apply append_inv_tail in H. now apply str_of_int_inj.
Qed.

End InnerScriptFacts.

(** ** The further theorems at work on the sample room *)

Module MoreChecks.
Import PyStr PyStrMore PyDict OsPath Argparse PlaceInBlender.
Import Hierarchy InnerPaths InnerScript Shell OuterCli Samples MoreSamples.

Example sample_selection :
  selected (select_meshes_under_empty chair_tree) = [legs_mesh; cushion_mesh]
  /\ last_active (select_meshes_under_empty chair_tree) = Some cushion_mesh.
Proof. split; reflexivity. Qed.

Example sample_command :
  RunMetaverseLocal.blender_cmd "/p" "room_97" 3 "true" true false
  = "python /p/3d_utlis/place_in_blender.py --room_name room_97 --step_number 3 --ground_truth true --fast_mode true".
Proof. reflexivity. Qed.


Lemma duplicate_name_resolves_witness :
  find_key "table.001" objects_in_room = Some "table"
  /\ find_key "table.002" objects_in_room = Some "table".
Proof.
  destruct (SuffixFacts.duplicate_name_resolves objects_in_room "table" eq_refl)
    as [H1 H2].
  split.
  - exact (H1 eq_refl eq_refl eq_refl).
  - exact (H2 eq_refl eq_refl eq_refl eq_refl).
Defined.

Lemma suffixes_are_not_combined_witness :
  find_key "chair.001-joined" objects_in_room = None.
Proof.
  exact (proj1 (proj2 (SuffixFacts.suffixes_are_not_combined
                         objects_in_room "chair" eq_refl eq_refl eq_refl)
                  eq_refl eq_refl eq_refl)).
Defined.

Lemma inner_accepts_outer_command_witness :
  exists argv,
    script_argv (RunMetaverseLocal.blender_cmd "/p" "room_97" 3 "true"
                   true false) = Some argv
    /\ argv = ["--room_name"; "room_97"; "--step_number"; "3";
               "--ground_truth"; "true"; "--fast_mode"; "true"]
    /\ parse_args PlaceInBlender.parser argv
       = Parsed [("room_name", PyStr "room_97"); ("step_number", PyInt 3);
                 ("ground_truth", PyBool true);
                 ("fast_mode", PyBool true); ("skip_save", PyBool false)].
Proof.
  exact (OuterCliFacts.inner_accepts_outer_command
           "/p" "room_97" 3 "true" true false 1
           eq_refl eq_refl eq_refl eq_refl ltac:(lia) eq_refl).
Defined.

Lemma bad_ground_truth_is_caught_by_inner_witness :
  parse_args RunMetaverseLocal.parser
    ["--room_name"; "room_97"; "--step_number"; "3";
     "--ground_truth"; "maybe"]
  = Parsed [("room_name", PyStr "room_97"); ("step_number", PyInt 3);
            ("ground_truth", PyStr "maybe");
            ("fast_mode", PyBool false); ("skip_save", PyBool false)]
  /\ exists argv,
      script_argv (RunMetaverseLocal.blender_cmd "/p" "room_97" 3 "maybe"
                     false false) = Some argv
      /\ parse_args PlaceInBlender.parser argv = UsageError.
Proof.
  exact (OuterCliFacts.bad_ground_truth_is_caught_by_inner
           "/p" "room_97" 3 "maybe" false false
           (ValueError "invalid truth value 'maybe'")
           eq_refl eq_refl eq_refl eq_refl ltac:(lia) eq_refl eq_refl).
Defined.

Lemma only_matched_meshes_are_transformed_witness :
  In chair_mesh scene /\ obj_type chair_mesh = MESH
  /\ find_key (obj_name chair_mesh) objects_in_room <> None.
Proof.
  apply (HierarchyFacts.only_matched_meshes_are_transformed
           objects_in_room scene chair_mesh).
  left. exists (1, 2, 0).
  apply BatchFacts.set_location_in_batch.
  split; [left; reflexivity|].
  exists (transform_of chair). split; reflexivity.
Defined.

Lemma scale_loop_stops_at_first_zero_witness :
  snd (batch_process_meshes objects_in_room flat_scene)
  = Some ZeroDivisionError
  /\ scaled (fst (batch_process_meshes objects_in_room flat_scene))
     = [chair_mesh].
Proof.
  apply (HierarchyFacts.scale_loop_stops_at_first_zero
           objects_in_room flat_scene [chair_mesh] flat_mesh [lamp_mesh]).
  - reflexivity.
  - intros o [<-|[]] _. simpl. repeat split; intros H; discriminate H.
  - reflexivity.
  - simpl. intros [_ [H _]]. apply H. reflexivity.
Defined.

Example sample_join_failure :
  nth_error (fst (script_body "/p/3d_utlis" step_args join_failure_host)) 18
  = Some Join
  /\ length (fst (script "/p/3d_utlis" step_args join_failure_host)) = 18%nat.
Proof. split; reflexivity. Qed.


Lemma finished_script_writes_blend_and_render_witness :
  files_written None (fst (script "/p/3d_utlis" step_args good_host))
  = ["/p/3d_utlis/data/room_97/generated_scene_step_3.blend";
     "/p/3d_utlis/data/room_97/render_output_step_3.png"].
Proof.
  exact (InnerScriptFacts.finished_script_writes_blend_and_render
           "/p/3d_utlis" step_args good_host eq_refl).
Defined.

End MoreChecks.
